(** * Financial_AI_Agent: the query router, the market-data fetch with its
      fallback table, the chat-completion call and the session history.

    The development follows [src/streamlit.py] (class [MultiAgentSystem] and
    the handlers of [main]: the sidebar status, the chat form, the Analyze
    Stock button, the search tab and the quick insights) and
    [src/simple_streamlit.py] ([display_chat_history]).

    Conventions of the embedding:
    - a Python [str] is a [string] holding its UTF-8 bytes; the substring test
      [a in b] on code points and on UTF-8 bytes agree;
    - a Python [dict] with string keys is a [gmap string _];
    - a [numpy.float64] is a primitive binary64 [float];
    - a function that may raise returns a [result]; a function that calls a
      remote service or touches the cache lives in the monad [M], which
      threads the [World] and collects the [event]s the call emits;
    - the clock moves between two actions of the user ([advance]) and,
      where a handler reads the cache twice, between the two reads
      ([elapse]);
    - what the Python runtime and the remote services answer is not code of
      the repository: it is taken as the parameters [Runtime] and
      [Services]. *)

From Stdlib Require Import Floats ZArith Ascii String.
From stdpp Require Import gmap strings list fin_maps pretty.

Local Open Scope string_scope.
Local Open Scope list_scope.
Local Open Scope Z_scope.

(** ** Python values, exceptions and strings *)

Module Py.

(** The scalar values a stock-data record or a provider's [info] holds. *)
Inductive value :=
| VNone
| VBool (b : bool)
| VInt (n : Z)
| VFloat (x : float)
| VStr (s : string).

(** An exception: its class and what [str(e)] gives. *)
Record exn := Exn { exn_class : string; exn_str : string }.

Inductive result (A : Type) :=
| Ok (a : A)
| Raise (e : exn).
Arguments Ok {A} a.
Arguments Raise {A} e.

Definition result_bind {A B} (r : result A) (k : A → result B) : result B :=
  match r with
  | Ok a => k a
  | Raise e => Raise e
  end.

(** [try: r except Exception as e: h e] *)
Definition try_except {A} (r : result A) (h : exn → A) : A :=
  match r with
  | Ok a => a
  | Raise e => h e
  end.

Definition is_ok {A} (r : result A) : bool :=
  match r with Ok _ => true | Raise _ => false end.

(** The new-line character of the triple-quoted literals. *)
Definition newline : ascii := ascii_of_nat 10.
Definition nl : string := String newline "".

(** [' ' * n] *)
Fixpoint spaces (n : nat) : string :=
  match n with
  | O => ""
  | S n' => String " " (spaces n')
  end.

(** [needle in hay] on strings. *)
Fixpoint str_in (needle hay : string) : bool :=
  String.prefix needle hay ||
  match hay with
  | EmptyString => false
  | String _ rest => str_in needle rest
  end.

(** [c] occurs in [p]. *)
Fixpoint has_char (c : ascii) (p : string) : bool :=
  match p with
  | EmptyString => false
  | String d p' => bool_decide (c = d) || has_char c p'
  end.

(** Truth value of a [str] and of an [Optional[str]]. *)
Definition truthy (s : string) : bool :=
  match s with EmptyString => false | String _ _ => true end.

Definition truthy_opt (o : option string) : bool :=
  match o with None => false | Some s => truthy s end.

(** [d[k]] *)
Definition getitem {V} (d : gmap string V) (k : string) : result V :=
  match d !! k with
  | Some v => Ok v
  | None => Raise (Exn "KeyError" ("'" +:+ k +:+ "'"))
  end.

(** [d.get(k, dflt)] *)
Definition dict_get {V} (d : gmap string V) (k : string) (dflt : V) : V :=
  default dflt (d !! k).

(** [k in d] *)
Definition contains_key {V} (d : gmap string V) (k : string) : bool :=
  bool_decide (is_Some (d !! k)).

(** [v == s] for a string literal [s]. *)
Definition eq_str (v : value) (s : string) : bool :=
  match v with
  | VStr t => bool_decide (t = s)
  | _ => false
  end.

(** Case mapping restricted to ASCII letters; every other byte is kept. *)
Definition ascii_lower_char (c : ascii) : ascii :=
  let n := nat_of_ascii c in
  if (65 <=? n)%nat && (n <=? 90)%nat then ascii_of_nat (n + 32) else c.

Definition ascii_upper_char (c : ascii) : ascii :=
  let n := nat_of_ascii c in
  if (97 <=? n)%nat && (n <=? 122)%nat then ascii_of_nat (n - 32) else c.

Fixpoint map_chars (f : ascii → ascii) (s : string) : string :=
  match s with
  | EmptyString => EmptyString
  | String c rest => String (f c) (map_chars f rest)
  end.

Definition ascii_lower : string → string := map_chars ascii_lower_char.
Definition ascii_upper : string → string := map_chars ascii_upper_char.

(** A byte that continues a UTF-8 sequence ([10xxxxxx]). *)
Definition utf8_continuation (c : ascii) : bool :=
  let n := nat_of_ascii c in (128 <=? n)%nat && (n <? 192)%nat.

(** [len(s)]: the number of code points of [s], one for each byte that does
    not continue a sequence. *)
Fixpoint str_len (s : string) : nat :=
  match s with
  | EmptyString => O
  | String c rest =>
      if utf8_continuation c then str_len rest else S (str_len rest)
  end.

(** [s] does not begin in the middle of a code point. *)
Definition at_boundary (s : string) : bool :=
  match s with
  | EmptyString => true
  | String c _ => negb (utf8_continuation c)
  end.

(** [s[:n]]: the first [n] code points of [s]. *)
Fixpoint take_chars (n : nat) (s : string) : string :=
  match s with
  | EmptyString => EmptyString
  | String c rest =>
      if utf8_continuation c then String c (take_chars n rest)
      else match n with
           | O => EmptyString
           | S n' => String c (take_chars n' rest)
           end
  end.

End Py.
Export Py.

(** ** What the runtime and the remote services answer *)

(** Builtins whose results the repository takes from Python and NumPy. *)
Record Runtime := {
  (** [str.lower] *)
  str_lower : string → string;
  (** [str.upper] *)
  str_upper : string → string;
  (** [round(x, 2)] on a [numpy.float64] *)
  round2 : float → float;
  (** [str(x)] of a float, as an f-string prints it *)
  str_of_float : float → string;
  (** [datetime.now().strftime("%H:%M:%S")] when the clock shows [t] *)
  strftime_HMS : Z → string;
}.

(** [f"{v}"] *)
Definition format_value (rt : Runtime) (v : value) : string :=
  match v with
  | VNone => "None"
  | VBool true => "True"
  | VBool false => "False"
  | VInt n => pretty n
  | VFloat x => str_of_float rt x
  | VStr s => s
  end.

(** One entry of the chat-completion message list. *)
Record message := Message { role : string; content : string }.

(** The JSON body [call_groq_api] posts. *)
Record payload := Payload {
  model : string;
  messages : list message;
  max_tokens : Z;
  temperature : float;
}.

(** What [call_groq_api] reads of an HTTP response: whether
    [raise_for_status()] raises, and what
    [response.json()["choices"][0]["message"]["content"]] evaluates to. *)
Record response := Response {
  raise_for_status : result unit;
  json_content : result string;
}.

(** The environment and the remote services, each answer depending on the
    time of the call. *)
Record Services := {
  (** [os.getenv] *)
  getenv : string → option string;
  (** [requests.post(url, json=payload, headers=headers)] *)
  requests_post : Z → string → payload → gmap string string → result response;
  (** [yf.Ticker(symbol).history(period="5d")['Close']], oldest first *)
  yf_history : Z → string → result (list float);
  (** [yf.Ticker(symbol).info] *)
  yf_info : Z → string → result (gmap string value);
}.

(** ** The world, the events and the monad of effectful calls *)

(** The wall clock (seconds) and the entries of [st.cache_data]: the record
    stored under a ticker symbol, with the time it was stored. *)
Record World := {
  clock : Z;
  cache : gmap string (Z * gmap string value);
}.

(** What a call leaves in the trace: the network calls it attempts and the
    agents it enters. *)
Inductive event :=
| Post (url : string) (body : payload) (headers : gmap string string)
| History (symbol : string)
| TickerInfo (symbol : string)
| WebSearchCall (query : string)
| FinanceCall (query : string) (symbol : option string).

Definition M (A : Type) : Type := World → A * World * list event.

Definition ret {A} (a : A) : M A := λ w, (a, w, []).

Definition bind {A B} (m : M A) (k : A → M B) : M B :=
  λ w, let '(a, w1, t1) := m w in
       let '(b, w2, t2) := k a w1 in
       (b, w2, t1 ++ t2).

Definition emit (e : event) : M unit := λ w, (tt, w, [e]).

Definition now : M Z := λ w, (clock w, w, []).

#[global] Instance M_ret : MRet M := @ret.
#[global] Instance M_bind : MBind M := λ A B k m, bind m k.

(** Result, final world and trace of a run. *)
Definition value_of {A} (r : A * World * list event) : A := r.1.1.
Definition world_of {A} (r : A * World * list event) : World := r.1.2.
Definition trace_of {A} (r : A * World * list event) : list event := r.2.

(** The network calls of a trace. *)
Definition is_network (e : event) : bool :=
  match e with
  | Post _ _ _ | History _ | TickerInfo _ => true
  | _ => false
  end.

Definition is_post (e : event) : bool :=
  match e with Post _ _ _ => true | _ => false end.

(** The calls to the market-data provider. *)
Definition is_provider (e : event) : bool :=
  match e with History _ | TickerInfo _ => true | _ => false end.

(** The agent invocations of a trace. *)
Definition is_agent_call (e : event) : bool :=
  match e with WebSearchCall _ | FinanceCall _ _ => true | _ => false end.

#[global] Instance result_ret : MRet result := @Ok.
#[global] Instance result_bind_inst : MBind result := λ A B k r, result_bind r k.

(** [hist['Close'].iloc[i]]: a negative position counts from the end, a
    position outside the frame raises. *)
Definition iloc (closes : list float) (i : Z) : result float :=
  let n := Z.of_nat (length closes) in
  let j := if i <? 0 then n + i else i in
  if (0 <=? j) && (j <? n) then
    match closes !! Z.to_nat j with
    | Some x => Ok x
    | None => Raise (Exn "IndexError" "single positional indexer is out-of-bounds")
    end
  else Raise (Exn "IndexError" "single positional indexer is out-of-bounds").

(** [hist.empty] *)
Definition is_empty {A} (l : list A) : bool :=
  match l with [] => true | _ :: _ => false end.

(** [v > 0] and [v < 0] for a value of a record. *)
Definition gt_zero (v : value) : result bool :=
  match v with
  | VFloat x => Ok (0 <? x)%float
  | VInt n => Ok (0 <? n)
  | VBool b => Ok b
  | VStr _ => Raise (Exn "TypeError" "'>' not supported between instances of 'str' and 'int'")
  | VNone => Raise (Exn "TypeError" "'>' not supported between instances of 'NoneType' and 'int'")
  end.

Definition lt_zero (v : value) : result bool :=
  match v with
  | VFloat x => Ok (x <? 0)%float
  | VInt n => Ok (n <? 0)
  | VBool _ => Ok false
  | VStr _ => Raise (Exn "TypeError" "'<' not supported between instances of 'str' and 'int'")
  | VNone => Raise (Exn "TypeError" "'<' not supported between instances of 'NoneType' and 'int'")
  end.

(** ** Code that works on a dict it was handed *)

(** A block of code that holds a reference to one dict: it runs on the
    dict's contents and leaves the contents it had at the end, or raises. *)
Definition D (A : Type) : Type :=
  gmap string value → result A * gmap string value.

#[global] Instance D_ret : MRet D := λ A a d, (Ok a, d).
#[global] Instance D_bind : MBind D := λ A B k m d,
  match m d with
  | (Ok a, d1) => k a d1
  | (Raise e, d1) => (Raise e, d1)
  end.

(** [stock_data[k]], [stock_data.get(k, dflt)], [k in stock_data] and
    [stock_data[k] = v]. *)
Definition d_getitem (k : string) : D value := λ d, (getitem d k, d).
Definition d_get (k : string) (dflt : value) : D value :=
  λ d, (Ok (dict_get d k dflt), d).
Definition d_contains (k : string) : D bool := λ d, (Ok (contains_key d k), d).
Definition d_setitem (k : string) (v : value) : D unit :=
  λ d, (Ok tt, <[k := v]> d).

(** A step that does not touch the dict. *)
Definition d_lift {A} (r : result A) : D A := λ d, (r, d).

(** The block leaves the dict as it found it, whatever the dict. *)
Definition readonly {A} (m : D A) : Prop := ∀ d, (m d).2 = d.

(** The block ended without raising. *)
Definition succeeds {A} (x : result A * gmap string value) : bool := is_ok x.1.

(** ** Streamlit's result cache *)

(** The record [st.cache_data] holds for [key], when it holds one that has
    not expired: an entry stored at time [t] is served while the clock is
    before [t + ttl]. *)
Definition cached (ttl : Z) (w : World) (key : string)
    : option (gmap string value) :=
  match cache w !! key with
  | Some (stored_at, v) => if clock w <? stored_at + ttl then Some v else None
  | None => None
  end.

Definition store (key : string) (v : gmap string value) (w : World) : World :=
  {| clock := clock w; cache := <[key := (clock w, v)]> (cache w) |}.

(** [@st.cache_data(ttl=ttl)] around a function whose one hashed argument is
    [key] (a parameter whose name starts with an underscore, here [_self],
    is not hashed). A record that has not expired is served without running
    the function; otherwise the function runs, and what it returns is
    stored. A call that raises stores nothing. *)
Definition cache_data (ttl : Z) (f : string → M (result (gmap string value)))
    (key : string) : M (result (gmap string value)) :=
  λ w,
    match cached ttl w key with
    | Some v => (Ok v, w, [])
    | None =>
        let '(r, w1, t) := f key w in
        match r with
        | Ok v => (Ok v, store key v w1, t)
        | Raise e => (Raise e, w1, t)
        end
    end.

(** Time passes: between two actions of the user, or between two steps of
    a handler. *)
Definition advance (dt : Z) (w : World) : World :=
  {| clock := clock w + dt; cache := cache w |}.

Definition elapse (dt : Z) : M unit := λ w, (tt, advance dt w, []).

(** ** [class MultiAgentSystem] *)

Module MultiAgentSystem.

(** One row of the hardcoded table of [get_fallback_stock_data]. *)
Record company := Company {
  name : string;
  sector : string;
  approx_price : Z;
}.

(** The instance fields set by [__init__]. *)
Record self_t := Self {
  groq_api_key : option string;
  groq_base_url : string;
}.

Definition fallback_data : gmap string company :=
  list_to_map [
    ("AAPL", Company "Apple Inc." "Technology" 175);
    ("GOOGL", Company "Alphabet Inc." "Technology" 140);
    ("MSFT", Company "Microsoft Corporation" "Technology" 420);
    ("NVDA", Company "NVIDIA Corporation" "Technology" 900);
    ("TSLA", Company "Tesla, Inc." "Automotive" 250);
    ("AMZN", Company "Amazon.com Inc." "E-commerce" 155)
  ].

Definition finance_keywords : list string :=
  ["stock"; "price"; "financial"; "investment"; "market"; "analyst";
   "recommendation"; "earnings"].

Definition missing_key_message : string :=
  "Error: GROQ_API_KEY not found. Please add it to your .env file.".

Definition default_model : string := "llama3-70b-8192".

Definition fallback_note : string :=
  "Using AI analysis instead of real-time data due to API limitations".

(** A line of the indented triple-quoted f-strings of [finance_agent]. *)
Definition line (s : string) : string := nl +:+ spaces 16 +:+ s.

Definition web_search_system : string :=
  "You are a web search agent. Provide comprehensive information about the query as if you searched the web. Always include sources and current information. Format your response in markdown.".

Definition finance_system_fallback : string :=
  "You are a financial analysis agent. The user is asking about a stock but real-time data is unavailable due to API limitations. Provide a comprehensive analysis based on your knowledge of the company, including general investment considerations, company background, market position, and typical financial metrics to look for. Be honest about data limitations but still provide valuable insights.".

Definition finance_system_live : string :=
  "You are a financial analysis agent. Analyze the provided stock data and provide insights, recommendations, and analysis. Format your response in markdown with tables where appropriate. If some data shows 'N/A' or 'API Limited', acknowledge this and focus on available data.".

Definition finance_system_plain : string :=
  "You are a financial analysis agent. Provide financial insights and analysis. Format your response in markdown with tables where appropriate.".

(** The two fixed texts of the finance branch of [multi_agent_response], the
    one of its search branch, and the closing lines. *)
Definition financial_header : string := "## 📊 Financial Analysis".
Definition news_header : string := "## 🌐 Latest News & Web Search".
Definition search_header : string := "## 🌐 Web Search Results".

Definition combined_footer : string :=
  nl +:+ nl +:+ "---" +:+ nl +:+
  "*Analysis combining real-time financial data and web search results*" +:+
  nl +:+ spaces 12.

Definition search_footer : string :=
  nl +:+ nl +:+ "---" +:+ nl +:+ "*Information gathered from web search*" +:+
  nl +:+ spaces 12.

Section Methods.

Variable rt : Runtime.
Variable sv : Services.

(** [__init__] *)
Definition init : self_t :=
  {| groq_api_key := getenv sv "GROQ_API_KEY";
     groq_base_url := "https://api.groq.com/openai/v1/chat/completions" |}.

Definition groq_headers (key : string) : gmap string string :=
  list_to_map [("Authorization", "Bearer " +:+ key);
               ("Content-Type", "application/json")].

(** [temperature]: the binary64 value of the literal [0.7]. *)
Definition groq_payload (mdl : string) (msgs : list message) : payload :=
  {| model := mdl; messages := msgs; max_tokens := 1000;
     temperature := 0x1.6666666666666p-1%float |}.

(** The [try] block of [call_groq_api]. *)
Definition groq_request (self : self_t) (headers : gmap string string)
    (body : payload) (t : Z) : result string :=
  resp ← requests_post sv t (groq_base_url self) body headers;
  raise_for_status resp;;
  json_content resp.

Definition call_groq_api (self : self_t) (msgs : list message)
    (mdl : string) : M string :=
  if truthy_opt (groq_api_key self) then
    let headers := groq_headers (default "" (groq_api_key self)) in
    let body := groq_payload mdl msgs in
    t ← now;
    emit (Post (groq_base_url self) body headers);;
    mret (try_except (groq_request self headers body t)
            (λ e, "Error calling Groq API: " +:+ exn_str e))
  else mret missing_key_message.

(** The one event of [call_groq_api] with the default model, when there is
    a key. *)
Definition post_of (self : self_t) (msgs : list message) : event :=
  Post (groq_base_url self) (groq_payload default_model msgs)
    (groq_headers (default "" (groq_api_key self))).

(** A post with the fixed parameters, a system message and a user
    message. *)
Definition well_formed_post (self : self_t) (e : event) : Prop :=
  ∃ system user,
    e = post_of self [Message "system" system; Message "user" user].

(** What one call of [call_groq_api] leaves in the trace: a well-formed post
    when there is a key, nothing otherwise. *)
Definition posts_of_one_call (self : self_t) (posts : list event) : Prop :=
  if truthy_opt (groq_api_key self) then
    ∃ system user,
      posts = [post_of self [Message "system" system; Message "user" user]]
  else posts = [].

Definition web_search_agent (self : self_t) (query : string) : M string :=
  emit (WebSearchCall query);;
  call_groq_api self
    [Message "system" web_search_system;
     Message "user" ("Search for information about: " +:+ query)]
    default_model.

Definition get_fallback_stock_data (symbol error_msg : string)
    : gmap string value :=
  let base_data :=
    default {| name := symbol +:+ " Corporation"; sector := "Unknown";
               approx_price := 100 |}
            (fallback_data !! str_upper rt symbol) in
  list_to_map [
    ("symbol", VStr symbol);
    ("current_price", VStr "API Limited");
    ("previous_close", VStr "API Limited");
    ("price_change", VStr "N/A");
    ("price_change_percent", VStr "N/A");
    ("market_cap", VStr "API Limited");
    ("pe_ratio", VStr "N/A");
    ("dividend_yield", VStr "N/A");
    ("52_week_high", VStr "N/A");
    ("52_week_low", VStr "N/A");
    ("company_name", VStr (name base_data));
    ("sector", VStr (sector base_data));
    ("industry", VStr "N/A");
    ("volume", VStr "N/A");
    ("data_source", VStr "Fallback Data");
    ("error_msg", VStr ("API Error: " +:+ error_msg));
    ("note", VStr fallback_note)
  ].

(** The record built from the live data. *)
Definition live_record (symbol : string) (current_price previous_close : float)
    (info : gmap string value) : gmap string value :=
  list_to_map [
    ("symbol", VStr symbol);
    ("current_price", VFloat (round2 rt current_price));
    ("previous_close", VFloat (round2 rt previous_close));
    ("price_change", VFloat (round2 rt (current_price - previous_close)%float));
    ("price_change_percent",
       VFloat (round2 rt
                 (((current_price - previous_close) / previous_close) * 100)%float));
    ("market_cap", dict_get info "marketCap" (VStr "N/A"));
    ("pe_ratio", dict_get info "trailingPE" (VStr "N/A"));
    ("dividend_yield", dict_get info "dividendYield" (VStr "N/A"));
    ("52_week_high", dict_get info "fiftyTwoWeekHigh" (VStr "N/A"));
    ("52_week_low", dict_get info "fiftyTwoWeekLow" (VStr "N/A"));
    ("company_name", dict_get info "longName" (VStr symbol));
    ("sector", dict_get info "sector" (VStr "N/A"));
    ("industry", dict_get info "industry" (VStr "N/A"));
    ("volume", dict_get info "volume" (VStr "N/A"));
    ("data_source", VStr "Yahoo Finance (Limited)")
  ].

(** The calls to the market-data provider. *)
Definition ticker_history (symbol : string) : M (result (list float)) :=
  t ← now;
  emit (History symbol);;
  mret (yf_history sv t symbol).

Definition ticker_info (symbol : string) : M (result (gmap string value)) :=
  t ← now;
  emit (TickerInfo symbol);;
  mret (yf_info sv t symbol).

(** The [try] block of [get_stock_data]. *)
Definition get_stock_data_try (symbol : string)
    : M (result (gmap string value)) :=
  h ← ticker_history symbol;
  match h with
  | Raise e => mret (Raise e)
  | Ok hist =>
      if is_empty hist then
        mret (Raise (Exn "Exception" "No historical data available"))
      else
        match iloc hist (-1) with
        | Raise e => mret (Raise e)
        | Ok current_price =>
            match (if (1 <? Z.of_nat (length hist)) then iloc hist (-2)
                   else Ok current_price) with
            | Raise e => mret (Raise e)
            | Ok previous_close =>
                i ← ticker_info symbol;
                let info := try_except i (λ _, ∅) in
                mret (Ok (live_record symbol current_price previous_close info))
            end
        end
  end.

(** The body of [get_stock_data], under its decorator. *)
Definition get_stock_data_wrapped (symbol : string)
    : M (result (gmap string value)) :=
  r ← get_stock_data_try symbol;
  mret (Ok (try_except r (λ e, get_fallback_stock_data symbol (exn_str e)))).

(** [get_stock_data] as the callers see it: decorated with
    [@st.cache_data(ttl=300)]. *)
Definition get_stock_data (symbol : string) : M (result (gmap string value)) :=
  cache_data 300 get_stock_data_wrapped symbol.

(** The keys of the dict literal of the live record; the fallback record
    has them too, and two more. *)
Definition live_fields : list string :=
  ["symbol"; "current_price"; "previous_close"; "price_change";
   "price_change_percent"; "market_cap"; "pe_ratio"; "dividend_yield";
   "52_week_high"; "52_week_low"; "company_name"; "sector"; "industry";
   "volume"; "data_source"].

Definition fallback_fields : list string :=
  live_fields ++ ["error_msg"; "note"].

(** The records [get_stock_data] builds: from the fallback table or from
    live data. *)
Definition stock_record (r : gmap string value) : Prop :=
  (∃ symbol error_msg, r = get_fallback_stock_data symbol error_msg) ∨
  (∃ symbol current_price previous_close info,
     r = live_record symbol current_price previous_close info).

(** Every cached record is one [get_stock_data] built. *)
Definition cache_ok (w : World) : Prop :=
  ∀ key stored_at r, cache w !! key = Some (stored_at, r) → stock_record r.

(** Every cached record is what the body of [get_stock_data] returned for
    its key at the time it was stored. *)
Definition cache_faithful (w : World) : Prop :=
  ∀ key stored_at r, cache w !! key = Some (stored_at, r) →
    ∃ w0, clock w0 = stored_at ∧
          value_of (get_stock_data_wrapped key w0) = Ok r.

(** The message list [finance_agent] builds from a record tagged as fallback
    data. [stock_info] is built and not used there. *)
Definition fallback_messages (query symbol : string) : D (list message) :=
  company_name ← d_getitem "company_name";
  note ← d_get "note" (VStr "Using AI analysis due to API limitations");
  sector ← d_getitem "sector";
  data_source ← d_getitem "data_source";
  error_msg ← d_get "error_msg" (VStr "API rate limit exceeded");
  let stock_info :=
    line ("**Stock Analysis for " +:+ format_value rt company_name +:+
          " (" +:+ symbol +:+ ")**") +:+
    line "" +:+
    line ("⚠️ **Note**: " +:+ format_value rt note) +:+
    line "" +:+
    line "| Information | Value |" +:+
    line "|-------------|-------|" +:+
    line ("| Company | " +:+ format_value rt company_name +:+ " |") +:+
    line ("| Sector | " +:+ format_value rt sector +:+ " |") +:+
    line ("| Data Source | " +:+ format_value rt data_source +:+ " |") +:+
    line "| API Status | Limited due to rate limiting |" +:+
    line "" +:+
    line ("**Error Details**: " +:+ format_value rt error_msg) +:+
    line "" in
  mret [Message "system" finance_system_fallback;
        Message "user"
          ("Analyze " +:+ symbol +:+ " (" +:+ format_value rt company_name +:+
           ") in the " +:+ format_value rt sector +:+ " sector. Query: " +:+
           query +:+ nl +:+ nl +:+
           "Note: Real-time data unavailable due to API limits. Please provide analysis based on your knowledge.")].

(** [stock_data.get('price_change', 0) > 0], then [... < 0]. *)
Definition price_change_indicator : D string :=
  change ← d_get "price_change" (VInt 0);
  up ← d_lift (gt_zero change);
  if up : bool then mret "📈"
  else
    change ← d_get "price_change" (VInt 0);
    down ← d_lift (lt_zero change);
    mret (if down : bool then "📉" else "➡️").

(** The message list [finance_agent] builds from any other record. *)
Definition live_messages (query symbol : string) : D (list message) :=
  indicator ← price_change_indicator;
  company_name ← d_getitem "company_name";
  current_price ← d_getitem "current_price";
  previous_close ← d_getitem "previous_close";
  price_change ← d_get "price_change" (VStr "N/A");
  price_change_percent ← d_get "price_change_percent" (VStr "N/A");
  market_cap ← d_getitem "market_cap";
  pe_ratio ← d_getitem "pe_ratio";
  dividend_yield ← d_getitem "dividend_yield";
  high ← d_getitem "52_week_high";
  low ← d_getitem "52_week_low";
  sector ← d_getitem "sector";
  industry ← d_getitem "industry";
  volume ← d_getitem "volume";
  data_source ← d_getitem "data_source";
  let stock_info :=
    line ("**Stock Information for " +:+ format_value rt company_name +:+
          " (" +:+ symbol +:+ ")**") +:+
    line "" +:+
    line "| Metric | Value |" +:+
    line "|--------|-------|" +:+
    line ("| Current Price | $" +:+ format_value rt current_price +:+ " |") +:+
    line ("| Previous Close | $" +:+ format_value rt previous_close +:+ " |") +:+
    line ("| Price Change | " +:+ indicator +:+ " $" +:+
          format_value rt price_change +:+ " (" +:+
          format_value rt price_change_percent +:+ "%) |") +:+
    line ("| Market Cap | " +:+ format_value rt market_cap +:+ " |") +:+
    line ("| P/E Ratio | " +:+ format_value rt pe_ratio +:+ " |") +:+
    line ("| Dividend Yield | " +:+ format_value rt dividend_yield +:+ " |") +:+
    line ("| 52 Week High | $" +:+ format_value rt high +:+ " |") +:+
    line ("| 52 Week Low | $" +:+ format_value rt low +:+ " |") +:+
    line ("| Sector | " +:+ format_value rt sector +:+ " |") +:+
    line ("| Industry | " +:+ format_value rt industry +:+ " |") +:+
    line ("| Volume | " +:+ format_value rt volume +:+ " |") +:+
    line ("| Data Source | " +:+ format_value rt data_source +:+ " |") +:+
    line "" in
  mret [Message "system" finance_system_live;
        Message "user"
          ("Analyze this stock data and query: " +:+ query +:+ nl +:+ nl +:+
           "Stock Data:" +:+ nl +:+ stock_info)].

(** What [finance_agent] does with the record it fetched: an early return of
    [stock_data["error"]], or the message list for the chat completion. *)
Definition finance_prompt (query symbol : string)
    : D (value + list message) :=
  has_error ← d_contains "error";
  if has_error : bool then
    v ← d_getitem "error"; mret (inl v)
  else
    data_source ← d_get "data_source" VNone;
    if eq_str data_source "Fallback Data" then
      msgs ← fallback_messages query symbol; mret (inr msgs)
    else
      msgs ← live_messages query symbol; mret (inr msgs).

(** [finance_prompt] ended with a message list. *)
Definition builds_messages
    (x : result (value + list message) * gmap string value) : bool :=
  match x with
  | (Ok (inr _), _) => true
  | _ => false
  end.

Definition finance_agent (self : self_t) (query : string)
    (symbol : option string) : M (result value) :=
  emit (FinanceCall query symbol);;
  if truthy_opt symbol then
    let symbol := default "" symbol in
    r ← get_stock_data symbol;
    match r with
    | Raise e => mret (Raise e)
    | Ok stock_data =>
        match (finance_prompt query symbol stock_data).1 with
        | Raise e => mret (Raise e)
        | Ok (inl v) => mret (Ok v)
        | Ok (inr msgs) =>
            answer ← call_groq_api self msgs default_model;
            mret (Ok (VStr answer))
        end
    end
  else
    answer ← call_groq_api self
               [Message "system" finance_system_plain; Message "user" query]
               default_model;
    mret (Ok (VStr answer)).

Definition is_finance_query (query : string) : bool :=
  existsb (λ keyword, str_in keyword (str_lower rt query)) finance_keywords.

(** The two f-strings of [multi_agent_response]. *)
Definition combined (finance_response web_response : string) : string :=
  nl +:+ financial_header +:+ nl +:+ finance_response +:+ nl +:+ nl +:+
  news_header +:+ nl +:+ web_response +:+ combined_footer.

Definition search_only (web_response : string) : string :=
  nl +:+ search_header +:+ nl +:+ web_response +:+ search_footer.

Definition multi_agent_response (self : self_t) (query : string)
    (symbol : option string) : M (result string) :=
  if is_finance_query query && truthy_opt symbol then
    finance_response ← finance_agent self query symbol;
    match finance_response with
    | Raise e => mret (Raise e)
    | Ok finance_response =>
        web_response ← web_search_agent self
                         ("latest news and analysis for " +:+ default "" symbol);
        mret (Ok (combined (format_value rt finance_response) web_response))
    end
  else
    web_response ← web_search_agent self query;
    mret (Ok (search_only web_response)).

End Methods.

End MultiAgentSystem.

(** ** What the pages show *)

(** The Streamlit elements the modelled pages emit; an expander holds the
    markdown bodies written inside it. *)
Inductive widget :=
| Markdown (body : string)
| Text (body : string)
| Success (body : string)
| Failure (body : string)
| Subheader (body : string)
| Expander (title : string) (markdowns : list string).

(** ** [main] of [streamlit.py]: API status, conversation and chat form *)

Module App.
Import MultiAgentSystem.

(** The options of the agent select box. *)
Inductive agent_choice := MultiAgent | WebSearch | Finance.

Definition label (a : agent_choice) : string :=
  match a with
  | MultiAgent => "Multi-Agent System"
  | WebSearch => "Web Search Agent"
  | Finance => "Finance Agent"
  end.

(** An entry of [st.session_state.chat_history]:
    [(user_input, response, timestamp, agent_choice)]. *)
Definition entry : Type := string * value * string * string.

Section Pages.

Variable rt : Runtime.
Variable sv : Services.

(** The API status block of the sidebar ([st.error] is [Failure]). *)
Definition api_status : list widget :=
  Markdown "### API Status" ::
  (if truthy_opt (getenv sv "GROQ_API_KEY") then
     [Success "✅ Groq API Key Found"]
   else
     [Failure "❌ Groq API Key Missing";
      Markdown "Please add your GROQ_API_KEY to the .env file"]).

(** The button that clears the chat history. *)
Definition clear_chat_history (chat_history : list entry) : list entry := [].




(** The search tab: the search button and the trending topics. *)
Definition search_web (self : self_t) (search_query : string)
    : M (list widget) :=
  if truthy search_query then
    response ← web_search_agent sv self search_query;
    mret [Markdown "### Search Results"; Markdown response]
  else mret [].

Definition topics : list (string * string) :=
  [("AI News", "latest artificial intelligence news");
   ("Tech Trends", "latest technology trends 2024");
   ("Market News", "stock market news today");
   ("Crypto Updates", "cryptocurrency news today")].

Definition topic_search (self : self_t) (topic : string * string)
    : M (list widget) :=
  let '(topic_name, topic_query) := topic in
  response ← web_search_agent sv self topic_query;
  mret [Markdown ("### " +:+ topic_name +:+ " Results"); Markdown response].

(** The quick insights tab: one button per popular stock, and the market
    overview. *)
Definition popular_stocks : list string :=
  ["NVDA"; "AAPL"; "GOOGL"; "MSFT"; "TSLA"; "AMZN"].

Definition quick_insight_query (stock : string) : string :=
  "Analyze " +:+ stock +:+ " stock with current data and recent news".

Definition quick_insight (self : self_t) (stock : string)
    : M (result (list widget)) :=
  response ← multi_agent_response rt sv self (quick_insight_query stock)
               (Some stock);
  mret (result_bind response
          (λ text, Ok [Markdown ("### " +:+ stock +:+ " Analysis");
                       Markdown text])).

Definition market_overview (self : self_t) : M (list widget) :=
  response ← web_search_agent sv self
               "Get current market overview including major indices performance and market sentiment";
  mret [Markdown response].

End Pages.

End App.

(** ** [display_chat_history] of [simple_streamlit.py] *)

Module SimpleApp.


(** One expander per listed pair, numbered from 1. *)
Definition show_pair (i : nat) (p : string * string) : widget :=
  let '(query, response) := p in
  Expander
    ("Query " +:+ pretty (i + 1)%nat +:+ ": " +:+ take_chars 50 query +:+ "...")
    ["**Query:** " +:+ query; "**Response:** " +:+ response].


End SimpleApp.

(** ** [main] of [streamlit.py]: the handler of the Analyze Stock button *)

Module StockTab.
Import MultiAgentSystem.

(** What the handler shows: elements of the other pages, warnings, notices
    ([st.info]) and metric cards. *)
Inductive element :=
| Plain (w : widget)
| Warning (body : string)
| Notice (body : string)
| Metric (label : string) (shown : value) (delta : option string).

(** The options of the analysis select box. *)
Inductive analysis_type :=
| Complete | PriceAndMetrics | Financial | MarketResearch.

(** [queries[analysis_type]] *)
Definition queries (a : analysis_type) (stock_symbol : string) : string :=
  match a with
  | Complete =>
      "Provide a comprehensive financial analysis for " +:+ stock_symbol
  | PriceAndMetrics =>
      "Analyze the stock metrics and trends for " +:+ stock_symbol
  | Financial => "Provide detailed financial analysis for " +:+ stock_symbol
  | MarketResearch =>
      "Research market sentiment and developments for " +:+ stock_symbol
  end.

(** A block of code that holds a reference to one dict and shows elements
    as it goes: what it has shown when it ends or raises, how it ended, and
    the contents it leaves in the dict. *)
Definition P (A : Type) : Type :=
  gmap string value → list element * (result A * gmap string value).

#[global] Instance P_ret : MRet P := λ A a d, ([], (Ok a, d)).
#[global] Instance P_bind : MBind P := λ A B k m d,
  match m d with
  | (shown, (Ok a, d1)) => let '(more, x) := k a d1 in (shown ++ more, x)
  | (shown, (Raise e, d1)) => (shown, (Raise e, d1))
  end.

Definition display (e : element) : P unit := λ d, ([e], (Ok tt, d)).

(** A step on the dict that shows nothing. *)
Definition p_lift {A} (m : D A) : P A := λ d, ([], m d).
Definition p_getitem (k : string) : P value := p_lift (d_getitem k).
Definition p_get (k : string) (dflt : value) : P value :=
  p_lift (d_get k dflt).

(** The block leaves the dict as it found it, whatever the dict. *)
Definition keeps_dict {A} (m : P A) : Prop := ∀ d, (m d).2.2 = d.

(** [isinstance(v, (int, float))] and [isinstance(v, int)]: a bool is an
    int, a [numpy.float64] is a float. *)
Definition is_number (v : value) : bool :=
  match v with
  | VInt _ | VBool _ | VFloat _ => true
  | VStr _ | VNone => false
  end.

Definition as_int (v : value) : option Z :=
  match v with
  | VInt n => Some n
  | VBool b => Some (if b then 1 else 0)
  | _ => None
  end.

Section Handler.

Variable rt : Runtime.
Variable sv : Services.

(** [f"{x:+.2f}"] of a number and [f"{n:,}"] of an int *)
Variable format_signed : value → string.
Variable format_thousands : Z → string.

(** The three metric cards of a record that is not tagged as fallback. *)
Definition metrics : P unit :=
  current_price ← p_getitem "current_price";
  (if negb (eq_str current_price "API Limited") then
     price_change ← p_get "price_change" (VInt 0);
     current_price ← p_getitem "current_price";
     display (Metric "Current Price"
                (VStr ("$" +:+ format_value rt current_price))
                (if is_number price_change
                 then Some (format_signed price_change) else None))
   else display (Metric "Current Price" (VStr "API Limited") None));;
  market_cap ← p_getitem "market_cap";
  (if negb (eq_str market_cap "API Limited") && negb (eq_str market_cap "N/A")
   then
     match as_int market_cap with
     | Some n =>
         display (Metric "Market Cap" (VStr ("$" +:+ format_thousands n)) None)
     | None =>
         display (Metric "Market Cap" (VStr (format_value rt market_cap)) None)
     end
   else display (Metric "Market Cap" (VStr "API Limited") None));;
  pe_ratio ← p_getitem "pe_ratio";
  display (Metric "P/E Ratio"
             (if negb (eq_str pe_ratio "N/A") then pe_ratio else VStr "N/A")
             None).

(** The panel shown for the record, above the analysis. *)
Definition stock_panel (stock_symbol : string) : P unit :=
  company_name ← p_getitem "company_name";
  display (Plain (Markdown ("### 📈 " +:+ format_value rt company_name +:+
                            " (" +:+ stock_symbol +:+ ")")));;
  data_source ← p_get "data_source" VNone;
  if eq_str data_source "Fallback Data" then
    note ← p_get "note" (VStr "Using AI analysis instead of real-time data");
    display (Warning ("⚠️ API Rate Limited: " +:+ format_value rt note));;
    company_name ← p_getitem "company_name";
    display (Notice ("**Company**: " +:+ format_value rt company_name));;
    sector ← p_getitem "sector";
    display (Notice ("**Sector**: " +:+ format_value rt sector))
  else metrics.

(** The handler of the button: what it shows, and how it ends. [elapsed]
    is the time that passes between the lookup of the handler and the call
    of [finance_agent], which looks the symbol up again. *)
Definition analyze_stock (self : self_t) (stock_symbol : string)
    (a : analysis_type) (elapsed : Z) : M (list element * result unit) :=
  if truthy stock_symbol then
    r ← get_stock_data rt sv stock_symbol;
    match r with
    | Raise e => mret ([], Raise e)
    | Ok stock_data =>
        match stock_panel stock_symbol stock_data with
        | (shown, (Raise e, _)) => mret (shown, Raise e)
        | (shown, (Ok _, _)) =>
            elapse elapsed;;
            analysis ← finance_agent rt sv self (queries a stock_symbol)
                         (Some stock_symbol);
            match analysis with
            | Raise e => mret (shown, Raise e)
            | Ok analysis =>
                mret (shown ++
                      [Plain (Markdown "### 🔍 AI Analysis");
                       Plain (Markdown (format_value rt analysis))], Ok tt)
            end
        end
    end
  else mret ([], Ok tt).

End Handler.

End StockTab.

(** ** A concrete runtime and concrete services, for the examples *)

Module Demo.

Local Open Scope float_scope.

(** [numpy.rint]: to the nearest integer, ties to even (the sign of a zero
    result is not kept). *)
Definition np_rint (x : float) : float :=
  if abs x <? 0x1p52 then
    if 0 <=? x then (x + 0x1p52) - 0x1p52 else (x - 0x1p52) + 0x1p52
  else x.

(** [numpy.round(x, 2)]: scale by [10**2], round to the nearest integer,
    scale back. *)
Definition np_round2 (x : float) : float := np_rint (x * 100) / 100.

Local Close Scope float_scope.

(** The integer an integral finite float holds. *)
Definition Z_of_integral (x : float) : Z :=
  match Prim2SF x with
  | S754_finite s m e =>
      let a := if (0 <=? e)%Z then Z.shiftl (Z.pos m) e
               else Z.shiftr (Z.pos m) (- e) in
      if s then - a else a
  | _ => 0
  end.

(** [str(x)] for a float with at most two decimals. *)
Definition str_of_float2 (x : float) : string :=
  if is_nan x then "nan"
  else if is_infinity x then (if (x <? 0)%float then "-inf" else "inf")
  else
    let cents := Z_of_integral (np_rint (x * 100)%float) in
    let a := Z.abs cents in
    let frac := a mod 100 in
    (if (cents <? 0) then "-" else "") +:+ pretty (a / 100) +:+ "." +:+
    (if frac mod 10 =? 0 then pretty (frac / 10)
     else pretty (frac / 10) +:+ pretty (frac mod 10)).

Definition two_digits (n : Z) : string :=
  pretty (n / 10 mod 10) +:+ pretty (n mod 10).

(** [%H:%M:%S] of a clock counting seconds from midnight. *)
Definition clock_HMS (t : Z) : string :=
  two_digits (t / 3600 mod 24) +:+ ":" +:+ two_digits (t / 60 mod 60) +:+
  ":" +:+ two_digits (t mod 60).

Definition runtime : Runtime :=
  {| str_lower := ascii_lower;
     str_upper := ascii_upper;
     round2 := np_round2;
     str_of_float := str_of_float2;
     strftime_HMS := clock_HMS |}.

(** A chat-completion endpoint that answers the last message. *)
Definition echo_post (t : Z) (url : string) (body : payload)
    (headers : gmap string string) : result response :=
  Ok {| raise_for_status := Ok tt;
        json_content :=
          Ok ("Answer to: " +:+
              default "" (content <$> last (messages body))) |}.

(** A chat-completion endpoint that cannot be reached. *)
Definition unreachable_post (t : Z) (url : string) (body : payload)
    (headers : gmap string string) : result response :=
  Raise (Exn "ConnectionError" "Max retries exceeded with url").

(** A market-data provider: two closes for AAPL and MSFT, one close for ONE,
    one close that is not a number for HALT, nothing for any other symbol,
    and for FLAKY an error during the first 100 seconds. *)
Definition closes (t : Z) (symbol : string) : result (list float) :=
  if String.eqb symbol "AAPL" then Ok [189.5; 191.25]%float
  else if String.eqb symbol "MSFT" then Ok [420; 418.5]%float
  else if String.eqb symbol "ONE" then Ok [150]%float
  else if String.eqb symbol "HALT" then Ok [nan]
  else if String.eqb symbol "FLAKY" then
    if t <? 100 then Raise (Exn "ConnectionError" "Max retries exceeded with url")
    else Ok [10; 11]%float
  else Ok [].

(** Its descriptive fields: present for AAPL, failing for MSFT, empty
    otherwise. *)
Definition fields (t : Z) (symbol : string) : result (gmap string value) :=
  if String.eqb symbol "AAPL" then
    Ok (list_to_map [("longName", VStr "Apple Inc.");
                     ("sector", VStr "Technology");
                     ("industry", VStr "Consumer Electronics");
                     ("marketCap", VInt 2950000000000);
                     ("volume", VInt 51234567)])
  else if String.eqb symbol "MSFT" then
    Raise (Exn "HTTPError" "429 Client Error: Too Many Requests")
  else Ok ∅.

Definition services (key : option string) : Services :=
  {| getenv := λ name, if String.eqb name "GROQ_API_KEY" then key else None;
     requests_post := echo_post;
     yf_history := closes;
     yf_info := fields |}.

Definition offline (key : option string) : Services :=
  {| getenv := λ name, if String.eqb name "GROQ_API_KEY" then key else None;
     requests_post := unreachable_post;
     yf_history := λ _ _, Raise (Exn "ConnectionError" "Max retries exceeded with url");
     yf_info := λ _ _, Raise (Exn "ConnectionError" "Max retries exceeded with url") |}.

(** The world at start-up: midnight, nothing cached. *)
Definition start : World := {| clock := 0; cache := ∅ |}.



End Demo.

(** * Properties *)

Import MultiAgentSystem.

(** ** Substrings *)

Section Substrings.

Lemma prefix_app (p a : string) : String.prefix p (p +:+ a) = true.
Proof.
  induction p as [|c p IH]; simpl.
  - by destruct a.
  - destruct (Ascii.ascii_dec c c); [exact IH | done].
Qed.

Lemma str_in_prefix (p a : string) : String.prefix p a = true → str_in p a = true.
Proof. intros H. destruct a; cbn [str_in]; by rewrite H. Qed.

Lemma str_in_cons (p : string) (c : ascii) (a : string) :
  str_in p a = true → str_in p (String c a) = true.
Proof. intros H. simpl. rewrite H. apply orb_true_r. Qed.

Lemma str_in_app_r (p a b : string) :
  str_in p b = true → str_in p (a +:+ b) = true.
Proof. intros H. induction a as [|c a IH]; [done | by apply str_in_cons]. Qed.

Lemma str_in_here (p a b : string) : str_in p (a +:+ p +:+ b) = true.
Proof. apply str_in_app_r, str_in_prefix, prefix_app. Qed.

Lemma prefix_across (p a : string) (c : ascii) (b : string) :
  has_char c p = false → p ≠ "" →
  String.prefix p (a +:+ String c b) = String.prefix p a.
Proof.
  revert p. induction a as [|x a IH]; intros p Hc Hp.
  - destruct p as [|d p]; [done |]. simpl in *.
    apply orb_false_elim in Hc as [Hd _].
    destruct (Ascii.ascii_dec d c) as [->|]; [|done].
    by rewrite bool_decide_eq_true_2 in Hd.
  - destruct p as [|d p]; [done |]. simpl.
    destruct (Ascii.ascii_dec d x); [|done].
    simpl in Hc. apply orb_false_elim in Hc as [_ Hc].
    destruct p as [|d' p]; [by destruct (a +:+ String c b), a |].
    by apply IH.
Qed.

(** A pattern cannot lie across a character it does not contain. *)
Lemma str_in_across (p a : string) (c : ascii) (b : string) :
  has_char c p = false → p ≠ "" →
  str_in p (a +:+ String c b) = str_in p a || str_in p b.
Proof.
  intros Hc Hp. induction a as [|x a IH].
  - pose proof (prefix_across p "" c b Hc Hp) as E.
    change ("" +:+ String c b) with (String c b) in *.
    cbn [str_in]. by rewrite E, orb_false_r.
  - pose proof (prefix_across p (String x a) c b Hc Hp) as E.
    change (String x a +:+ String c b) with (String x (a +:+ String c b)) in *.
    cbn [str_in]. by rewrite IH, E, !orb_assoc.
Qed.

Lemma str_in_skip (p : string) (c : ascii) (b : string) :
  has_char c p = false → p ≠ "" → str_in p (String c b) = str_in p b.
Proof.
  intros Hc Hp. pose proof (str_in_across p "" c b Hc Hp) as E.
  change ("" +:+ String c b) with (String c b) in E. rewrite E.
  by destruct p.
Qed.

End Substrings.

(** ** Binary64 arithmetic *)

Section Float64.

Local Open Scope float_scope.

(** The change [x - x] and its percentage [(x - x) / x * 100], by the kind
    of number [x] is: a zero, a positive or a negative finite number, an
    infinity or no number at all. *)
Lemma one_close_cases (x : float) :
  match Prim2SF x with
  | S754_zero _ =>
      is_finite x = true ∧ (x =? 0) = true ∧ (0 <? x) = false ∧
      (x <? 0) = false ∧ x - x = 0 ∧ ((x - x) / x) * 100 = nan
  | S754_finite false _ _ =>
      is_finite x = true ∧ (x =? 0) = false ∧ (0 <? x) = true ∧
      (x <? 0) = false ∧ x - x = 0 ∧ ((x - x) / x) * 100 = 0
  | S754_finite true _ _ =>
      is_finite x = true ∧ (x =? 0) = false ∧ (0 <? x) = false ∧
      (x <? 0) = true ∧ x - x = 0 ∧ ((x - x) / x) * 100 = (-0)
  | _ =>
      is_finite x = false ∧ (x =? 0) = false ∧
      x - x = nan ∧ ((x - x) / x) * 100 = nan
  end.
Proof.
  destruct (Prim2SF x) as [s|s| |s m e] eqn:E.
  - assert (x = if s then (-0) else 0) as ->.
    { apply Prim2SF_inj. rewrite E. by destruct s. }
    destruct s; repeat split; reflexivity.
  - assert (x = if s then neg_infinity else infinity) as ->.
    { apply Prim2SF_inj. rewrite E. by destruct s. }
    destruct s; repeat split; reflexivity.
  - assert (x = nan) as ->.
    { apply Prim2SF_inj. by rewrite E. }
    repeat split; reflexivity.
  - assert (x - x = 0) as Hsub.
    { apply Prim2SF_inj. rewrite sub_spec, E. unfold SF64sub, SFsub.
      destruct s; by rewrite Z.min_id, Z.sub_diag. }
    assert (0 / x = if s then (-0) else 0) as Hdiv.
    { apply Prim2SF_inj. rewrite div_spec, E. by destruct s. }
    assert (is_finite x = true) as Hfin.
    { unfold is_finite, is_nan, is_infinity.
      rewrite !FloatAxioms.eqb_spec, abs_spec, E.
      unfold SFeqb, SFcompare. cbn. rewrite Z.compare_refl.
      rewrite Pos.compare_cont_refl. by destruct s. }
    assert ((x =? 0) = false) as Hne.
    { rewrite FloatAxioms.eqb_spec, E. by destruct s. }
    assert ((0 <? x) = negb s ∧ (x <? 0) = s) as [Hpos Hneg].
    { rewrite !ltb_spec, E. by destruct s. }
    rewrite Hsub, Hdiv, Hfin, Hne, Hpos, Hneg. by destruct s.
Qed.

End Float64.

(** ** The market-data fetch *)

(** Unfolds the monad of effectful calls. *)
Ltac run :=
  unfold mbind, M_bind, bind, mret, M_ret, ret, emit, now; cbn.

Section Fetch.

Variable rt : Runtime.
Variable sv : Services.

Lemma iloc_last (pre : list float) (c : float) : iloc (pre ++ [c]) (-1) = Ok c.
Proof.
  unfold iloc. rewrite length_app, Nat2Z.inj_add. cbn [length].
  replace (Z.of_nat (length pre) + Z.of_nat 1 + -1) with (Z.of_nat (length pre)) by lia.
  cbn [Z.ltb Z.compare].
  rewrite (proj2 (Z.leb_le _ _)), (proj2 (Z.ltb_lt _ _)) by lia.
  cbn [andb]. rewrite Nat2Z.id, lookup_app_r by lia.
  by rewrite Nat.sub_diag.
Qed.

Lemma iloc_previous (pre : list float) (p c : float) :
  iloc (pre ++ [p; c]) (-2) = Ok p.
Proof.
  unfold iloc. rewrite length_app, Nat2Z.inj_add. cbn [length].
  replace (Z.of_nat (length pre) + Z.of_nat 2 + -2) with (Z.of_nat (length pre)) by lia.
  cbn [Z.ltb Z.compare].
  rewrite (proj2 (Z.leb_le _ _)), (proj2 (Z.ltb_lt _ _)) by lia.
  cbn [andb]. rewrite Nat2Z.id, lookup_app_r by lia.
  by rewrite Nat.sub_diag.
Qed.

Lemma try_history_raises symbol w e :
  yf_history sv (clock w) symbol = Raise e →
  get_stock_data_try rt sv symbol w = (Raise e, w, [History symbol]).
Proof. intros H. unfold get_stock_data_try, ticker_history. run. by rewrite H. Qed.

Lemma try_history_empty symbol w :
  yf_history sv (clock w) symbol = Ok [] →
  get_stock_data_try rt sv symbol w =
    (Raise (Exn "Exception" "No historical data available"), w, [History symbol]).
Proof. intros H. unfold get_stock_data_try, ticker_history. run. by rewrite H. Qed.

Lemma try_history_one symbol w c :
  yf_history sv (clock w) symbol = Ok [c] →
  get_stock_data_try rt sv symbol w =
    (Ok (live_record rt symbol c c (try_except (yf_info sv (clock w) symbol) (λ _, ∅))),
     w, [History symbol; TickerInfo symbol]).
Proof.
  intros H. unfold get_stock_data_try, ticker_history, ticker_info. run.
  by rewrite H.
Qed.

Lemma try_history_many symbol w pre p c :
  yf_history sv (clock w) symbol = Ok (pre ++ [p; c]) →
  get_stock_data_try rt sv symbol w =
    (Ok (live_record rt symbol c p (try_except (yf_info sv (clock w) symbol) (λ _, ∅))),
     w, [History symbol; TickerInfo symbol]).
Proof.
  intros H. unfold get_stock_data_try, ticker_history, ticker_info. run.
  rewrite H. cbn.
  replace (pre ++ [p; c]) with ((pre ++ [p]) ++ [c]) by by rewrite <- app_assoc.
  rewrite iloc_last. rewrite <- app_assoc. cbn [app].
  rewrite iloc_previous.
  assert (is_empty (pre ++ [p; c]) = false) as -> by by destruct pre.
  assert ((1 <? Z.of_nat (length (pre ++ [p; c]))) = true) as ->.
  { apply Z.ltb_lt. rewrite length_app. cbn. lia. }
  done.
Qed.

Lemma history_cases (hist : list float) :
  hist = [] ∨ (∃ c, hist = [c]) ∨ (∃ pre p c, hist = pre ++ [p; c]).
Proof.
  destruct hist as [|x hist] using rev_ind; [by left |].
  destruct hist as [|y hist _] using rev_ind; [right; left; by eexists |].
  right; right. exists hist, y, x. by rewrite <- app_assoc.
Qed.

(** The body of [get_stock_data] never raises: it returns a record it built,
    leaves the world as it is, and calls the provider once or twice. *)
Lemma wrapped_run symbol w :
  ∃ r t, get_stock_data_wrapped rt sv symbol w = (Ok r, w, t) ∧
         stock_record rt r ∧
         (t = [History symbol] ∨ t = [History symbol; TickerInfo symbol]).
Proof.
  unfold get_stock_data_wrapped.
  destruct (yf_history sv (clock w) symbol) as [hist|e] eqn:H.
  - destruct (history_cases hist) as [->|[[c ->]|(pre & p & c & ->)]].
    + run. rewrite (try_history_empty _ _ H). cbn.
      do 2 eexists. split_and!; [done | left; eauto | by left].
    + run. rewrite (try_history_one _ _ _ H). cbn.
      do 2 eexists. split_and!; [done | right; eauto | by right].
    + run. rewrite (try_history_many _ _ _ _ _ H). cbn.
      do 2 eexists. split_and!; [done | right; eauto | by right].
  - run. rewrite (try_history_raises _ _ _ H). cbn.
    do 2 eexists. split_and!; [done | left; eauto | by left].
Qed.

Lemma get_stock_data_hit symbol w v :
  cached 300 w symbol = Some v →
  get_stock_data rt sv symbol w = (Ok v, w, []).
Proof. intros H. unfold get_stock_data, cache_data. by rewrite H. Qed.

Lemma get_stock_data_miss symbol w r t :
  cached 300 w symbol = None →
  get_stock_data_wrapped rt sv symbol w = (Ok r, w, t) →
  get_stock_data rt sv symbol w = (Ok r, store symbol r w, t).
Proof. intros H E. unfold get_stock_data, cache_data. by rewrite H, E. Qed.

Lemma cached_ok w symbol v :
  cache_ok rt w → cached 300 w symbol = Some v → stock_record rt v.
Proof.
  unfold cached. intros Hw H.
  destruct (cache w !! symbol) as [[stored_at r]|] eqn:E; [|done].
  destruct (clock w <? stored_at + 300); [|done].
  injection H as <-. by eapply Hw.
Qed.

Lemma store_ok w symbol r :
  cache_ok rt w → stock_record rt r → cache_ok rt (store symbol r w).
Proof.
  intros Hw Hr key stored_at r'. cbn.
  destruct (decide (symbol = key)) as [->|Hne].
  - rewrite lookup_insert_eq. by intros [= _ <-].
  - rewrite lookup_insert_ne by done. apply Hw.
Qed.

(** What a stored record is served as, while it has not expired. *)
Lemma cached_store w symbol r dt :
  dt < 300 → cached 300 (advance dt (store symbol r w)) symbol = Some r.
Proof.
  intros H. unfold cached. cbn. rewrite lookup_insert_eq.
  by rewrite (proj2 (Z.ltb_lt _ _)) by lia.
Qed.

(** [get_stock_data] returns a record it built, now or earlier, keeps the
    cache well formed, and emits nothing but calls to the provider. *)
Lemma get_stock_data_run symbol w :
  cache_ok rt w →
  ∃ r w1 t, get_stock_data rt sv symbol w = (Ok r, w1, t) ∧
            stock_record rt r ∧ cache_ok rt w1 ∧ clock w1 = clock w ∧
            (t = [] ∨ t = [History symbol] ∨
             t = [History symbol; TickerInfo symbol]).
Proof.
  intros Hw. destruct (cached 300 w symbol) as [v|] eqn:H.
  - exists v, w, []. rewrite (get_stock_data_hit _ _ _ H).
    split_and!; [done | by eapply cached_ok | done | done | by left].
  - destruct (wrapped_run symbol w) as (r & t & E & Hr & Ht).
    exists r, (store symbol r w), t. rewrite (get_stock_data_miss _ _ _ _ H E).
    split_and!; [done | done | by apply store_ok | done | by right].
Qed.

End Fetch.

(** ** The fallback table *)

Section Fallback.

Variable rt : Runtime.

(** The six keys of the table. *)
Lemma fallback_data_keys (key : string) :
  fallback_data !! key = None ↔
  key ∉ ["AAPL"; "GOOGL"; "MSFT"; "NVDA"; "TSLA"; "AMZN"].
Proof. unfold fallback_data. by rewrite <- not_elem_of_list_to_map. Qed.

(** C3: for a ticker symbol whose upper-cased form is not a key of the
    hardcoded table, [get_fallback_stock_data] returns a record (the function
    is total: it cannot raise) whose company name is the placeholder
    ["<symbol> Corporation"] and whose sector is ["Unknown"]. *)
Theorem fallback_unknown_symbol (symbol error_msg : string) :
  fallback_data !! str_upper rt symbol = None →
  get_fallback_stock_data rt symbol error_msg !! "company_name"
    = Some (VStr (symbol +:+ " Corporation")) ∧
  get_fallback_stock_data rt symbol error_msg !! "sector"
    = Some (VStr "Unknown").
Proof. intros H. unfold get_fallback_stock_data. by rewrite H. Qed.

(** C10: the table is looked up under the upper-cased symbol, so two
    spellings with the same upper-cased form find the same row (["aapl"]
    finds Apple Inc. as soon as its upper-cased form is ["AAPL"]), and the
    ["symbol"] field of the record is the caller's string as given. *)
Theorem fallback_lookup_ignores_case (symbol error_msg : string) :
  let r := get_fallback_stock_data rt symbol error_msg in
  r !! "symbol" = Some (VStr symbol) ∧
  (∀ row, fallback_data !! str_upper rt symbol = Some row →
     r !! "company_name" = Some (VStr (name row)) ∧
     r !! "sector" = Some (VStr (sector row)) ∧
     ∀ other, str_upper rt other = str_upper rt symbol →
       get_fallback_stock_data rt other error_msg !! "company_name"
         = Some (VStr (name row)) ∧
       get_fallback_stock_data rt other error_msg !! "sector"
         = Some (VStr (sector row)) ∧
       get_fallback_stock_data rt other error_msg !! "symbol"
         = Some (VStr other)) ∧
  (str_upper rt "aapl" = "AAPL" →
     get_fallback_stock_data rt "aapl" error_msg !! "company_name"
       = Some (VStr "Apple Inc.") ∧
     get_fallback_stock_data rt "aapl" error_msg !! "symbol"
       = Some (VStr "aapl")).
Proof.
  split_and!.
  - done.
  - intros row H. unfold get_fallback_stock_data. rewrite H.
    split_and!; [done | done |].
    intros other ->. by rewrite H.
  - intros H. unfold get_fallback_stock_data. by rewrite H.
Qed.

End Fallback.

(** A symbol outside the table, under the ASCII case mapping. *)
Lemma fallback_unknown_symbol_witness :
  fallback_data !! str_upper Demo.runtime "shop" = None ∧
  get_fallback_stock_data Demo.runtime "shop" "timeout" !! "company_name"
    = Some (VStr "shop Corporation") ∧
  get_fallback_stock_data Demo.runtime "shop" "timeout" !! "sector"
    = Some (VStr "Unknown").
Proof.
  split; [reflexivity |].
  apply (fallback_unknown_symbol Demo.runtime "shop" "timeout"). reflexivity.
Defined.

(** The lower-case spelling of a listed ticker, under the ASCII case
    mapping. *)
Lemma fallback_lower_case_ticker :
  str_upper Demo.runtime "aapl" = "AAPL" ∧
  get_fallback_stock_data Demo.runtime "aapl" "timeout" !! "company_name"
    = Some (VStr "Apple Inc.") ∧
  get_fallback_stock_data Demo.runtime "aapl" "timeout" !! "symbol"
    = Some (VStr "aapl").
Proof.
  split; [reflexivity |].
  apply (fallback_lookup_ignores_case Demo.runtime "aapl" "timeout").
  reflexivity.
Defined.

(** ** Failures of the provider, short histories and the cache *)

Section FetchClaims.

Variable rt : Runtime.
Variable sv : Services.

(** C2, amended: when nothing is cached for the symbol and the price
    history cannot be had (the provider raises, or the history is empty),
    [get_stock_data] returns the fallback record, built with the text of the
    error; when the history is there and only the descriptive fields fail,
    it returns the live record built from no field at all. *)
Theorem history_failure_falls_back (symbol : string) (w : World) :
  cached 300 w symbol = None →
  (∀ e, yf_history sv (clock w) symbol = Raise e →
     value_of (get_stock_data rt sv symbol w)
       = Ok (get_fallback_stock_data rt symbol (exn_str e))) ∧
  (yf_history sv (clock w) symbol = Ok [] →
     value_of (get_stock_data rt sv symbol w)
       = Ok (get_fallback_stock_data rt symbol "No historical data available")) ∧
  (∀ hist e, yf_history sv (clock w) symbol = Ok hist → hist ≠ [] →
     yf_info sv (clock w) symbol = Raise e →
     ∃ current_price previous_close,
       value_of (get_stock_data rt sv symbol w)
         = Ok (live_record rt symbol current_price previous_close ∅)).
Proof.
  intros Hmiss.
  assert (∀ r t, get_stock_data_wrapped rt sv symbol w = (Ok r, w, t) →
            value_of (get_stock_data rt sv symbol w) = Ok r) as Hrun.
  { intros r t E. by rewrite (get_stock_data_miss _ _ _ _ _ _ Hmiss E). }
  split_and!.
  - intros e H. eapply Hrun. unfold get_stock_data_wrapped. run.
    by rewrite (try_history_raises _ _ _ _ _ H).
  - intros H. eapply Hrun. unfold get_stock_data_wrapped. run.
    by rewrite (try_history_empty _ _ _ _ H).
  - intros hist e H Hne Hinfo.
    destruct (history_cases hist) as [->|[[c ->]|(pre & p & c & ->)]]; [done | |].
    + exists c, c. eapply Hrun. unfold get_stock_data_wrapped. run.
      by rewrite (try_history_one _ _ _ _ _ H), Hinfo.
    + exists c, p. eapply Hrun. unfold get_stock_data_wrapped. run.
      by rewrite (try_history_many _ _ _ _ _ _ _ H), Hinfo.
Qed.

(** C4, amended: when nothing is cached for the symbol and the history has
    one point, [get_stock_data] does not raise: it returns a live record
    whose previous close is the current price, so that the price change is
    the rounding of [c - c] and its percentage the rounding of
    [(c - c) / c * 100]. For a finite close the change is 0. For a finite
    close other than zero the percentage is 0 too: the positive zero for a
    positive close, the negative zero for a negative one, and both compare
    equal to 0. For a close of zero the change is 0 and the percentage is
    not a number; for a close that is infinite or not a number, neither is
    a number. After a rounding that maps zeros to zeros, the two fields of a
    finite close other than zero compare equal to 0. *)
Theorem single_point_history (symbol : string) (w : World) (c : float) :
  cached 300 w symbol = None →
  yf_history sv (clock w) symbol = Ok [c] →
  ∃ r change percent,
    value_of (get_stock_data rt sv symbol w) = Ok r ∧
    r !! "data_source" = Some (VStr "Yahoo Finance (Limited)") ∧
    r !! "current_price" = Some (VFloat (round2 rt c)) ∧
    r !! "previous_close" = Some (VFloat (round2 rt c)) ∧
    r !! "price_change" = Some (VFloat (round2 rt change)) ∧
    r !! "price_change_percent" = Some (VFloat (round2 rt percent)) ∧
    (is_finite c = true → change = 0%float) ∧
    (is_finite c = true → (0 <? c)%float = true → percent = 0%float) ∧
    (is_finite c = true → (c <? 0)%float = true → percent = (-0)%float) ∧
    (is_finite c = true → (c =? 0)%float = false →
     (percent =? 0)%float = true) ∧
    ((c =? 0)%float = true → change = 0%float ∧ percent = nan) ∧
    (is_finite c = false → change = nan ∧ percent = nan) ∧
    ((∀ z, (z =? 0)%float = true → (round2 rt z =? 0)%float = true) →
     is_finite c = true → (c =? 0)%float = false →
     ∃ x y, r !! "price_change" = Some (VFloat x) ∧
            r !! "price_change_percent" = Some (VFloat y) ∧
            (x =? 0)%float = true ∧ (y =? 0)%float = true).
Proof.
  intros Hmiss H.
  exists (live_record rt symbol c c
            (try_except (yf_info sv (clock w) symbol) (λ _, ∅))),
         (c - c)%float, ((c - c) / c * 100)%float.
  split.
  { erewrite get_stock_data_miss; [done | done |].
    unfold get_stock_data_wrapped. run.
    by rewrite (try_history_one _ _ _ _ _ H). }
  split_and!; [done | done | done | done | done | | | | | | |].
  all: pose proof (one_close_cases c) as Hc;
    destruct (Prim2SF c) as [s|s| |[] m e];
    [destruct Hc as (Hfin & Hz & Hpos & Hneg & Hsub & Hpct)
    |destruct Hc as (Hfin & Hz & Hsub & Hpct)
    |destruct Hc as (Hfin & Hz & Hsub & Hpct)
    |destruct Hc as (Hfin & Hz & Hpos & Hneg & Hsub & Hpct)
    |destruct Hc as (Hfin & Hz & Hpos & Hneg & Hsub & Hpct)];
    rewrite ?Hpct, ?Hsub, ?Hfin, ?Hz, ?Hpos, ?Hneg;
    try (intros; done).
  all: intros Hround _ _; do 2 eexists;
    (split; [reflexivity |]); (split; [reflexivity |]);
    split; apply Hround; rewrite ?Hpct, ?Hsub; reflexivity.
Qed.

(** C5, amended: a lookup that finds nothing cached stores what it returns,
    the live record and the fallback record alike; a second lookup of the
    same symbol less than 300 seconds later returns that record and emits
    nothing, so it makes no call to the provider; 300 seconds later or
    more, the provider is asked again. *)
Theorem lookups_are_cached (symbol : string) (w : World) (dt : Z) :
  cached 300 w symbol = None →
  let first := get_stock_data rt sv symbol w in
  let second := get_stock_data rt sv symbol (advance dt (world_of first)) in
  filter is_provider (trace_of first) ≠ [] ∧
  (dt < 300 → trace_of second = [] ∧ value_of second = value_of first) ∧
  (300 ≤ dt → filter is_provider (trace_of second) ≠ []).
Proof.
  intros Hmiss.
  destruct (wrapped_run rt sv symbol w) as (r & t & E & _ & Ht).
  cbn zeta. rewrite (get_stock_data_miss _ _ _ _ _ _ Hmiss E).
  unfold world_of, trace_of, value_of. cbn [fst snd].
  split_and!.
  - by destruct Ht as [-> | ->].
  - intros Hdt.
    by rewrite (get_stock_data_hit _ _ _ _ _ (cached_store w symbol r dt Hdt)).
  - intros Hdt.
    assert (cached 300 (advance dt (store symbol r w)) symbol = None) as Hexp.
    { unfold cached. cbn. rewrite lookup_insert_eq.
      by rewrite (proj2 (Z.ltb_ge _ _)) by lia. }
    destruct (wrapped_run rt sv symbol (advance dt (store symbol r w)))
      as (r2 & t2 & E2 & _ & Ht2).
    rewrite (get_stock_data_miss _ _ _ _ _ _ Hexp E2). cbn [snd].
    by destruct Ht2 as [-> | ->].
Qed.

End FetchClaims.

(** The provider is unreachable for FLAKY at start-up. *)
Lemma history_failure_falls_back_witness :
  cached 300 Demo.start "FLAKY" = None ∧
  yf_history (Demo.services None) (clock Demo.start) "FLAKY"
    = Raise (Exn "ConnectionError" "Max retries exceeded with url") ∧
  value_of (get_stock_data Demo.runtime (Demo.services None) "FLAKY" Demo.start)
    = Ok (get_fallback_stock_data Demo.runtime "FLAKY"
            "Max retries exceeded with url").
Proof.
  split_and!; [reflexivity | reflexivity |].
  destruct (history_failure_falls_back Demo.runtime (Demo.services None)
              "FLAKY" Demo.start eq_refl) as (H & _ & _).
  apply (H (Exn "ConnectionError" "Max retries exceeded with url")).
  reflexivity.
Defined.

(** C2 as stated fails: for MSFT the history is there and the descriptive
    fields cannot be had, and [get_stock_data] returns a live record, tagged
    as such, with ["N/A"] for the fields; it is not the fallback record. *)
Lemma descriptive_fields_failure_keeps_live_record :
  yf_history (Demo.services None) (clock Demo.start) "MSFT"
    = Ok [420; 418.5]%float ∧
  yf_info (Demo.services None) (clock Demo.start) "MSFT"
    = Raise (Exn "HTTPError" "429 Client Error: Too Many Requests") ∧
  value_of (get_stock_data Demo.runtime (Demo.services None) "MSFT" Demo.start)
    = Ok (live_record Demo.runtime "MSFT" 418.5 420 ∅) ∧
  live_record Demo.runtime "MSFT" 418.5 420 ∅ !! "data_source"
    = Some (VStr "Yahoo Finance (Limited)") ∧
  live_record Demo.runtime "MSFT" 418.5 420 ∅ !! "sector"
    = Some (VStr "N/A") ∧
  ∀ error_msg,
    live_record Demo.runtime "MSFT" 418.5 420 ∅
      ≠ get_fallback_stock_data Demo.runtime "MSFT" error_msg.
Proof.
  split_and!; [reflexivity | reflexivity | reflexivity | reflexivity
              | reflexivity |].
  intros error_msg H.
  apply (f_equal (λ r : gmap string value, r !! "data_source")) in H.
  change (Some (VStr "Yahoo Finance (Limited)") = Some (VStr "Fallback Data"))
    in H.
  discriminate.
Qed.

(** One close of 150 for ONE: the change and its percentage are 0. *)
Lemma single_point_history_witness :
  cached 300 Demo.start "ONE" = None ∧
  yf_history (Demo.services None) (clock Demo.start) "ONE" = Ok [150%float] ∧
  ∃ r, value_of (get_stock_data Demo.runtime (Demo.services None) "ONE" Demo.start)
         = Ok r ∧
       r !! "previous_close" = Some (VFloat 150) ∧
       r !! "price_change" = Some (VFloat 0) ∧
       r !! "price_change_percent" = Some (VFloat 0).
Proof.
  split_and!; [reflexivity | reflexivity |].
  destruct (single_point_history Demo.runtime (Demo.services None) "ONE"
              Demo.start 150%float eq_refl eq_refl)
    as (r & change & percent & Hr & _ & _ & Hprev & Hchange & Hpercent
        & Hfinite & Hpositive & _).
  exists r. split_and!; [exact Hr | exact Hprev | |].
  - rewrite Hchange, (Hfinite eq_refl). reflexivity.
  - rewrite Hpercent, (Hpositive eq_refl eq_refl). reflexivity.
Defined.

(** C4 as stated fails: for HALT the history has one point, a close that is
    not a number; [get_stock_data] does not raise, and the price change and
    its percentage are not a number, which is not 0. *)
Lemma nan_close_gives_nan_change :
  yf_history (Demo.services None) (clock Demo.start) "HALT" = Ok [nan] ∧
  ∃ r, value_of (get_stock_data Demo.runtime (Demo.services None) "HALT" Demo.start)
         = Ok r ∧
       r !! "price_change" = Some (VFloat nan) ∧
       r !! "price_change_percent" = Some (VFloat nan) ∧
       (nan =? 0)%float = false ∧ nan ≠ 0%float.
Proof.
  split; [reflexivity |].
  exists (live_record Demo.runtime "HALT" nan nan ∅).
  split_and!; [reflexivity | reflexivity | reflexivity | reflexivity |].
  intros H. apply (f_equal is_nan) in H. vm_compute in H. discriminate.
Qed.

(** A second lookup of AAPL two minutes after the first. *)
Lemma lookups_are_cached_witness :
  cached 300 Demo.start "AAPL" = None ∧ 120 < 300 ∧
  trace_of (get_stock_data Demo.runtime (Demo.services None) "AAPL"
              (advance 120
                 (world_of (get_stock_data Demo.runtime (Demo.services None)
                              "AAPL" Demo.start)))) = [] ∧
  value_of (get_stock_data Demo.runtime (Demo.services None) "AAPL"
              (advance 120
                 (world_of (get_stock_data Demo.runtime (Demo.services None)
                              "AAPL" Demo.start))))
    = value_of (get_stock_data Demo.runtime (Demo.services None) "AAPL"
                  Demo.start).
Proof.
  split_and!; [reflexivity | lia | |].
  - apply (lookups_are_cached Demo.runtime (Demo.services None) "AAPL"
             Demo.start 120 eq_refl). lia.
  - apply (lookups_are_cached Demo.runtime (Demo.services None) "AAPL"
             Demo.start 120 eq_refl). lia.
Defined.

(** C5 as stated fails: the lookup of FLAKY at start-up fails and returns the
    fallback record; 200 seconds later the provider has the history, and
    [get_stock_data] still returns the fallback record, from the cache,
    without a call to the provider. *)
Lemma failed_lookup_is_cached :
  let first :=
    get_stock_data Demo.runtime (Demo.services None) "FLAKY" Demo.start in
  let later := advance 200 (world_of first) in
  let fallback :=
    get_fallback_stock_data Demo.runtime "FLAKY" "Max retries exceeded with url" in
  value_of first = Ok fallback ∧
  cached 300 later "FLAKY" = Some fallback ∧
  yf_history (Demo.services None) (clock later) "FLAKY" = Ok [10; 11]%float ∧
  get_stock_data Demo.runtime (Demo.services None) "FLAKY" later
    = (Ok fallback, later, []).
Proof. cbn zeta. split_and!; reflexivity. Qed.

(** ** Reading a record *)

Section Reading.

Lemma D_bind_ok {A B} (m : D A) (k : A → D B) d a d1 :
  m d = (Ok a, d1) → (m ≫= k) d = k a d1.
Proof. intros H. unfold mbind, D_bind. by rewrite H. Qed.

Lemma readonly_ret {A} (a : A) : readonly (mret a).
Proof. done. Qed.

Lemma readonly_bind {A B} (m : D A) (k : A → D B) :
  readonly m → (∀ a, readonly (k a)) → readonly (m ≫= k).
Proof.
  intros Hm Hk d. unfold mbind, D_bind. specialize (Hm d).
  destruct (m d) as [[a|e] d1]; cbn in Hm; subst d1; [apply Hk | done].
Qed.

Lemma readonly_getitem k : readonly (d_getitem k).
Proof. done. Qed.

Lemma readonly_get k dflt : readonly (d_get k dflt).
Proof. done. Qed.

Lemma readonly_contains k : readonly (d_contains k).
Proof. done. Qed.

Lemma readonly_lift {A} (r : result A) : readonly (d_lift r).
Proof. done. Qed.

End Reading.

(** Decomposes a block into the reads it is made of. *)
Ltac readonly_steps :=
  repeat first
    [ apply readonly_ret | apply readonly_getitem | apply readonly_get
    | apply readonly_contains | apply readonly_lift
    | apply readonly_bind; [| intros ?]
    | match goal with
      | |- readonly (if ?b then _ else _) => destruct b
      | |- readonly (match ?x with _ => _ end) => destruct x
      end ].

Section Prompts.

Variable rt : Runtime.

(** No block of [finance_agent] writes to the record it reads. *)
Lemma fallback_messages_readonly query symbol :
  readonly (fallback_messages rt query symbol).
Proof. unfold fallback_messages. readonly_steps. Qed.

Lemma price_change_indicator_readonly : readonly price_change_indicator.
Proof. unfold price_change_indicator. readonly_steps. Qed.

Lemma live_messages_readonly query symbol :
  readonly (live_messages rt query symbol).
Proof.
  unfold live_messages.
  apply readonly_bind; [apply price_change_indicator_readonly | intros ?].
  readonly_steps.
Qed.

Lemma finance_prompt_readonly query symbol :
  readonly (finance_prompt rt query symbol).
Proof.
  unfold finance_prompt.
  apply readonly_bind; [apply readonly_contains | intros has_error].
  destruct has_error; [readonly_steps |].
  apply readonly_bind; [apply readonly_get | intros data_source].
  destruct (eq_str data_source "Fallback Data").
  - apply readonly_bind; [apply fallback_messages_readonly | intros ?].
    apply readonly_ret.
  - apply readonly_bind; [apply live_messages_readonly | intros ?].
    apply readonly_ret.
Qed.

Lemma indicator_live symbol c p info :
  ∃ s, price_change_indicator (live_record rt symbol c p info)
       = (Ok s, live_record rt symbol c p info).
Proof.
  unfold price_change_indicator.
  cbv [mbind D_bind d_get d_lift mret D_ret].
  assert (dict_get (live_record rt symbol c p info) "price_change" (VInt 0)
          = VFloat (round2 rt (c - p))) as -> by reflexivity.
  cbn [gt_zero lt_zero].
  destruct (0 <? round2 rt (c - p))%float; [by eexists |].
  destruct (round2 rt (c - p) <? 0)%float; by eexists.
Qed.

Lemma live_messages_ok query s symbol c p info :
  succeeds (live_messages rt query s (live_record rt symbol c p info)) = true.
Proof.
  destruct (indicator_live symbol c p info) as [ind H].
  unfold live_messages. by rewrite (D_bind_ok _ _ _ _ _ H).
Qed.

Lemma finance_prompt_live query s symbol c p info :
  builds_messages (finance_prompt rt query s (live_record rt symbol c p info))
    = true.
Proof.
  pose proof (live_messages_ok query s symbol c p info) as H.
  unfold finance_prompt.
  rewrite (D_bind_ok _ _ _ false (live_record rt symbol c p info))
    by reflexivity.
  cbv beta iota.
  rewrite (D_bind_ok _ _ _ (VStr "Yahoo Finance (Limited)")
             (live_record rt symbol c p info)) by reflexivity.
  assert (eq_str (VStr "Yahoo Finance (Limited)") "Fallback Data" = false)
    as -> by reflexivity.
  unfold mbind at 1. unfold D_bind at 1.
  by destruct (live_messages rt query s (live_record rt symbol c p info))
    as [[msgs|e] d].
Qed.

Lemma finance_prompt_fallback query s symbol error_msg :
  builds_messages
    (finance_prompt rt query s (get_fallback_stock_data rt symbol error_msg))
    = true.
Proof. reflexivity. Qed.

(** From a record [get_stock_data] built, [finance_agent] gets its message
    list: no key is missing, no comparison fails, and the record is left as
    it was. *)
Lemma finance_prompt_run query s r :
  stock_record rt r →
  ∃ msgs, finance_prompt rt query s r = (Ok (inr msgs), r).
Proof.
  intros Hr. pose proof (finance_prompt_readonly query s r) as Hro.
  assert (builds_messages (finance_prompt rt query s r) = true) as Hb.
  { destruct Hr as [(symbol & e & ->)|(symbol & c & p & info & ->)].
    - apply finance_prompt_fallback.
    - apply finance_prompt_live. }
  destruct (finance_prompt rt query s r) as [[[v|msgs]|e] d]; cbn in *;
    try done.
  subst d. by exists msgs.
Qed.

End Prompts.

(** ** The chat-completion call *)

Section Groq.

Variable sv : Services.

(** Whatever the key and the endpoint, [call_groq_api] returns a string,
    leaves the world as it is, and emits at most one event, a post. *)
Lemma call_groq_api_run self msgs mdl w :
  ∃ answer t, call_groq_api sv self msgs mdl w = (answer, w, t) ∧
              (t = [] ∨ ∃ url body headers, t = [Post url body headers]).
Proof.
  unfold call_groq_api. destruct (truthy_opt (groq_api_key self)); run.
  - do 2 eexists. split; [done |]. right. by do 3 eexists.
  - do 2 eexists. split; [done | by left].
Qed.

(** C7: [call_groq_api] returns a string in every case and leaves the world
    as it is. With a key it posts exactly once: when the post, the status
    check and the reading of the content all succeed the string is the
    content of the response; when one of them raises it is the error text
    ["Error calling Groq API: "] followed by the text of the exception.
    Without a key it posts nothing and returns the missing-key text. *)
Theorem call_groq_api_answers (self : self_t) (msgs : list message)
    (mdl : string) (w : World) :
  let run := call_groq_api sv self msgs mdl w in
  let headers := groq_headers (default "" (groq_api_key self)) in
  let body := groq_payload mdl msgs in
  world_of run = w ∧
  if truthy_opt (groq_api_key self) then
    trace_of run = [Post (groq_base_url self) body headers] ∧
    match requests_post sv (clock w) (groq_base_url self) body headers with
    | Raise e => value_of run = "Error calling Groq API: " +:+ exn_str e
    | Ok resp =>
        match raise_for_status resp with
        | Raise e => value_of run = "Error calling Groq API: " +:+ exn_str e
        | Ok _ =>
            match json_content resp with
            | Raise e => value_of run = "Error calling Groq API: " +:+ exn_str e
            | Ok text => value_of run = text
            end
        end
    end
  else trace_of run = [] ∧ value_of run = missing_key_message.
Proof.
  cbn zeta. unfold call_groq_api.
  destruct (truthy_opt (groq_api_key self)); run; [|done].
  split_and!; [done | done |]. unfold groq_request.
  destruct (requests_post sv _ _ _ _) as [resp|e]; [|done]. cbn.
  destruct (raise_for_status resp) as [[]|e]; [|done]. cbn.
  by destruct (json_content resp).
Qed.

(** C6: when [GROQ_API_KEY] is not in the environment, [call_groq_api] of
    the system [main] builds returns the fixed missing-key text, emits no
    event (so it posts nothing) and leaves the world as it is, and the
    sidebar shows the fixed missing-key error with its advice. *)
Theorem missing_key_warns (msgs : list message) (mdl : string) (w : World) :
  getenv sv "GROQ_API_KEY" = None →
  call_groq_api sv (init sv) msgs mdl w
    = ("Error: GROQ_API_KEY not found. Please add it to your .env file.",
       w, []) ∧
  App.api_status sv
    = [Markdown "### API Status";
       Failure "❌ Groq API Key Missing";
       Markdown "Please add your GROQ_API_KEY to the .env file"].
Proof.
  intros H. unfold call_groq_api, App.api_status, init. cbn. by rewrite H.
Qed.

Lemma web_search_agent_run self query w :
  ∃ answer t, web_search_agent sv self query w
                = (answer, w, WebSearchCall query :: t) ∧
              (t = [] ∨ ∃ url body headers, t = [Post url body headers]).
Proof.
  unfold web_search_agent.
  destruct (call_groq_api_run self
              [Message "system" web_search_system;
               Message "user" ("Search for information about: " +:+ query)]
              default_model w) as (answer & t & E & Ht).
  run. rewrite E. by exists answer, t.
Qed.

End Groq.

(** No key in the environment of the demo services. *)
Lemma missing_key_warns_witness :
  getenv (Demo.services None) "GROQ_API_KEY" = None ∧
  call_groq_api (Demo.services None) (init (Demo.services None))
      [Message "user" "What moved the market today?"] default_model Demo.start
    = (missing_key_message, Demo.start, []) ∧
  App.api_status (Demo.services None)
    = [Markdown "### API Status";
       Failure "❌ Groq API Key Missing";
       Markdown "Please add your GROQ_API_KEY to the .env file"].
Proof.
  split; [reflexivity |].
  apply (missing_key_warns (Demo.services None)
           [Message "user" "What moved the market today?"] default_model
           Demo.start).
  reflexivity.
Defined.

(** With a key: one post answered, and one post that cannot be sent. *)
Lemma call_groq_api_examples :
  call_groq_api (Demo.services (Some "gsk")) (init (Demo.services (Some "gsk")))
      [Message "user" "hello"] default_model Demo.start
    = ("Answer to: hello", Demo.start,
       [Post "https://api.groq.com/openai/v1/chat/completions"
          (groq_payload default_model [Message "user" "hello"])
          (groq_headers "gsk")]) ∧
  value_of (call_groq_api (Demo.offline (Some "gsk"))
              (init (Demo.offline (Some "gsk")))
              [Message "user" "hello"] default_model Demo.start)
    = "Error calling Groq API: Max retries exceeded with url".
Proof. split; reflexivity. Qed.

(** ** The agents and the router *)

Section Router.

Variable rt : Runtime.
Variable sv : Services.

(** With a well-formed cache [finance_agent] does not raise: it enters once,
    emits no other agent call, keeps the cache well formed and the clock as
    it is. *)
Lemma finance_agent_run self query symbol w :
  cache_ok rt w →
  ∃ v w1 t, finance_agent rt sv self query symbol w
              = (Ok v, w1, FinanceCall query symbol :: t) ∧
            filter is_agent_call t = [] ∧ cache_ok rt w1 ∧
            clock w1 = clock w.
Proof.
  intros Hw. unfold finance_agent.
  destruct (truthy_opt symbol).
  - destruct (get_stock_data_run rt sv (default "" symbol) w Hw)
      as (r & w1 & t1 & E & Hr & Hw1 & Hclock & Ht1).
    destruct (finance_prompt_run rt query (default "" symbol) r Hr)
      as [msgs Hp].
    destruct (call_groq_api_run sv self msgs default_model w1)
      as (answer & t2 & E2 & Ht2).
    run. rewrite E. cbn. rewrite Hp. cbn. rewrite E2. cbn.
    do 3 eexists. split_and!; [done | | done | done].
    rewrite app_nil_r, filter_app.
    destruct Ht1 as [-> | [-> | ->]];
      by destruct Ht2 as [-> | (? & ? & ? & ->)].
  - destruct (call_groq_api_run sv self
                [Message "system" finance_system_plain; Message "user" query]
                default_model w) as (answer & t2 & E2 & Ht2).
    run. rewrite E2. cbn.
    do 3 eexists. split_and!; [done | | done | done].
    rewrite app_nil_r. by destruct Ht2 as [-> | (? & ? & ? & ->)].
Qed.

Lemma is_finance_query_spec query :
  is_finance_query rt query = true ↔
  ∃ keyword, keyword ∈ finance_keywords ∧
             str_in keyword (str_lower rt query) = true.
Proof.
  unfold is_finance_query. rewrite existsb_exists.
  by setoid_rewrite list_elem_of_In.
Qed.

(** The text of the finance branch holds both of its headers. *)
Lemma combined_financial_header finance_response web_response :
  str_in financial_header (combined finance_response web_response) = true.
Proof. unfold combined. apply (str_in_here financial_header nl). Qed.

Lemma combined_news_header finance_response web_response :
  str_in news_header (combined finance_response web_response) = true.
Proof.
  unfold combined. do 6 apply str_in_app_r. apply str_in_prefix, prefix_app.
Qed.

(** The text of the search branch holds its header. *)
Lemma search_only_header web_response :
  str_in search_header (search_only web_response) = true.
Proof. unfold search_only. apply (str_in_here search_header nl). Qed.

(** In the text of the search branch a header of the finance branch can
    only come from the answer of the search itself. *)
Lemma search_only_other_headers header web_response :
  header = financial_header ∨ header = news_header →
  str_in header web_response = false →
  str_in header (search_only web_response) = false.
Proof.
  intros Hh Hweb.
  assert (has_char newline header = false ∧ header ≠ "" ∧
          str_in header search_header = false ∧
          str_in header
            (nl +:+ "---" +:+ nl +:+ "*Information gathered from web search*"
             +:+ nl +:+ spaces 12) = false) as (Hc & Hne & Hs & Hf).
  { by destruct Hh as [-> | ->]. }
  assert (∀ x, nl +:+ x = String newline x) as Hnl by done.
  unfold search_only, search_footer. rewrite !Hnl in *.
  rewrite (str_in_skip _ _ _ Hc Hne).
  rewrite (str_in_across _ _ _ _ Hc Hne), Hs.
  rewrite (str_in_across _ _ _ _ Hc Hne), Hweb.
  exact Hf.
Qed.

(** C1, amended: the query counts as a finance query exactly when its lower-cased
    text contains one of the eight fixed keywords. For a finance query with
    a ticker, and a cache that holds only records [get_stock_data] built,
    the router enters [finance_agent] with the query and the ticker, then
    [web_search_agent] with the latest-news query for the ticker, and
    nothing else; its text is built from their two answers and holds the
    headers [financial_header] and [news_header]. In every other case the
    router enters [web_search_agent] once, with the query, and no other
    agent; its text is built from that answer and holds [search_header],
    and neither header of the finance branch unless the answer itself
    holds it. *)
Theorem router_branches (self : self_t) (query : string)
    (symbol : option string) (w : World) :
  cache_ok rt w →
  let run := multi_agent_response rt sv self query symbol w in
  (is_finance_query rt query = true ↔
   ∃ keyword, keyword ∈ finance_keywords ∧
              str_in keyword (str_lower rt query) = true) ∧
  (is_finance_query rt query = true → truthy_opt symbol = true →
   let finance := finance_agent rt sv self query symbol w in
   let news :=
     web_search_agent sv self
       ("latest news and analysis for " +:+ default "" symbol)
       (world_of finance) in
   filter is_agent_call (trace_of run)
     = [FinanceCall query symbol;
        WebSearchCall ("latest news and analysis for " +:+ default "" symbol)] ∧
   ∃ finance_response,
     value_of finance = Ok finance_response ∧
     value_of run
       = Ok (combined (format_value rt finance_response) (value_of news)) ∧
     str_in financial_header
       (combined (format_value rt finance_response) (value_of news)) = true ∧
     str_in news_header
       (combined (format_value rt finance_response) (value_of news)) = true) ∧
  (is_finance_query rt query = false ∨ truthy_opt symbol = false →
   let search := web_search_agent sv self query w in
   filter is_agent_call (trace_of run) = [WebSearchCall query] ∧
   value_of run = Ok (search_only (value_of search)) ∧
   str_in search_header (search_only (value_of search)) = true ∧
   ∀ header, header = financial_header ∨ header = news_header →
     str_in header (value_of search) = false →
     str_in header (search_only (value_of search)) = false).
Proof.
  intros Hw. cbn zeta. split_and!.
  - apply is_finance_query_spec.
  - intros Hq Hs.
    destruct (finance_agent_run self query symbol w Hw)
      as (v & w1 & t1 & E1 & Ht1 & _ & _).
    destruct (web_search_agent_run sv self
                ("latest news and analysis for " +:+ default "" symbol) w1)
      as (answer & t2 & E2 & Ht2).
    assert (multi_agent_response rt sv self query symbol w
            = (Ok (combined (format_value rt v) answer), w1,
               FinanceCall query symbol ::
               t1 ++
               WebSearchCall
                 ("latest news and analysis for " +:+ default "" symbol) ::
               t2)) as Erun.
    { unfold multi_agent_response. rewrite Hq, Hs. cbn [andb].
      unfold mbind, M_bind, bind. rewrite E1. cbn. rewrite E2. cbn.
      by rewrite app_nil_r. }
    rewrite Erun, E1. unfold value_of, world_of, trace_of. cbn [fst snd].
    rewrite E2. cbn [fst snd]. split.
    + rewrite filter_cons_True by done.
      rewrite filter_app, Ht1. cbn [app].
      rewrite filter_cons_True by done.
      by destruct Ht2 as [-> | (? & ? & ? & ->)].
    + exists v. split; [reflexivity |]. split; [reflexivity |].
      split; [exact (combined_financial_header _ _)
             | exact (combined_news_header _ _)].
  - intros Hcase.
    assert (is_finance_query rt query && truthy_opt symbol = false) as Hc.
    { destruct Hcase as [-> | ->]; [done | apply andb_false_r]. }
    destruct (web_search_agent_run sv self query w)
      as (answer & t & E & Ht).
    assert (multi_agent_response rt sv self query symbol w
            = (Ok (search_only answer), w, WebSearchCall query :: t)) as Erun.
    { unfold multi_agent_response. rewrite Hc.
      unfold mbind, M_bind, bind. rewrite E. cbn. by rewrite app_nil_r. }
    rewrite Erun, E. unfold value_of, trace_of. cbn [fst snd].
    split_and!.
    + rewrite filter_cons_True by done.
      by destruct Ht as [-> | (? & ? & ? & ->)].
    + reflexivity.
    + exact (search_only_header answer).
    + intros header Hh Hweb.
      exact (search_only_other_headers header answer Hh Hweb).
Qed.


End Router.

(** A finance query with a ticker, and a general query, at start-up. *)
Lemma router_branches_witness :
  cache_ok Demo.runtime Demo.start ∧
  filter is_agent_call
    (trace_of (multi_agent_response Demo.runtime (Demo.services (Some "gsk"))
                 (init (Demo.services (Some "gsk")))
                 "Is the AAPL Stock a buy?" (Some "AAPL") Demo.start))
    = [FinanceCall "Is the AAPL Stock a buy?" (Some "AAPL");
       WebSearchCall "latest news and analysis for AAPL"] ∧
  filter is_agent_call
    (trace_of (multi_agent_response Demo.runtime (Demo.services (Some "gsk"))
                 (init (Demo.services (Some "gsk")))
                 "Who won the match?" (Some "AAPL") Demo.start))
    = [WebSearchCall "Who won the match?"].
Proof.
  assert (cache_ok Demo.runtime Demo.start) as Hw.
  { intros key stored_at r H. discriminate H. }
  split; [exact Hw |].
  destruct (router_branches Demo.runtime (Demo.services (Some "gsk"))
              (init (Demo.services (Some "gsk")))
              "Is the AAPL Stock a buy?" (Some "AAPL") Demo.start Hw)
    as (_ & Hfinance & _).
  destruct (router_branches Demo.runtime (Demo.services (Some "gsk"))
              (init (Demo.services (Some "gsk")))
              "Who won the match?" (Some "AAPL") Demo.start Hw)
    as (_ & _ & Hsearch).
  split.
  - apply Hfinance; reflexivity.
  - apply Hsearch. left. reflexivity.
Defined.

(** C1 as stated fails in its last clause: the text of the search branch
    pastes the answer of the search, and an answer that holds the header of
    the news section puts it in the text, beside the header of the search
    results. Here the query is no finance query, one search is made, and the
    endpoint answers with the text it was asked about. *)
Lemma search_answer_can_hold_the_news_header :
  let query := "Quote this line: ## 🌐 Latest News & Web Search" in
  let run :=
    multi_agent_response Demo.runtime (Demo.services (Some "gsk"))
      (init (Demo.services (Some "gsk"))) query (Some "AAPL") Demo.start in
  is_finance_query Demo.runtime query = false ∧
  filter is_agent_call (trace_of run) = [WebSearchCall query] ∧
  ∃ text, value_of run = Ok text ∧
          str_in search_header text = true ∧
          str_in news_header text = true.
Proof.
  cbn zeta. split_and!; [reflexivity | reflexivity |].
  eexists. split_and!; reflexivity.
Qed.

(** ** The stock-data record *)

(** The steps of the panel of the Analyze Stock button leave the record as
    it is. *)
Section Panel.

Lemma keeps_dict_ret {A} (a : A) : StockTab.keeps_dict (mret a).
Proof. done. Qed.

Lemma keeps_dict_bind {A B} (m : StockTab.P A) (k : A → StockTab.P B) :
  StockTab.keeps_dict m → (∀ a, StockTab.keeps_dict (k a)) →
  StockTab.keeps_dict (m ≫= k).
Proof.
  intros Hm Hk d. unfold mbind, StockTab.P_bind. specialize (Hm d).
  destruct (m d) as [shown [[a|e] d1]]; cbn in Hm; subst d1; [|done].
  specialize (Hk a d). by destruct (k a d) as [more [r d2]].
Qed.

Lemma keeps_dict_display e : StockTab.keeps_dict (StockTab.display e).
Proof. done. Qed.

Lemma keeps_dict_lift {A} (m : D A) :
  readonly m → StockTab.keeps_dict (StockTab.p_lift m).
Proof. intros H d. apply H. Qed.

Lemma keeps_dict_getitem k : StockTab.keeps_dict (StockTab.p_getitem k).
Proof. done. Qed.

Lemma keeps_dict_get k dflt : StockTab.keeps_dict (StockTab.p_get k dflt).
Proof. done. Qed.

Variable rt : Runtime.
Variable format_signed : value → string.
Variable format_thousands : Z → string.

Lemma metrics_keeps_dict :
  StockTab.keeps_dict (StockTab.metrics rt format_signed format_thousands).
Proof.
  unfold StockTab.metrics.
  repeat first
    [ apply keeps_dict_bind; [|intros ?]
    | apply keeps_dict_getitem
    | apply keeps_dict_get
    | apply keeps_dict_display
    | match goal with
      | |- StockTab.keeps_dict (if ?b then _ else _) => destruct b
      | |- StockTab.keeps_dict (match ?o with Some _ => _ | None => _ end) =>
          destruct o
      end ].
Qed.

Lemma stock_panel_keeps_dict stock_symbol :
  StockTab.keeps_dict
    (StockTab.stock_panel rt format_signed format_thousands stock_symbol).
Proof.
  unfold StockTab.stock_panel.
  repeat first
    [ apply metrics_keeps_dict
    | apply keeps_dict_bind; [|intros ?]
    | apply keeps_dict_getitem
    | apply keeps_dict_get
    | apply keeps_dict_display
    | match goal with
      | |- StockTab.keeps_dict (if ?b then _ else _) => destruct b
      end ].
Qed.

End Panel.

Section Records.

Variable rt : Runtime.
Variable sv : Services.

Lemma live_record_fields symbol c p info :
  dom (live_record rt symbol c p info) = list_to_set live_fields.
Proof. unfold live_record. by rewrite dom_list_to_map_L. Qed.

Lemma fallback_record_fields symbol error_msg :
  dom (get_fallback_stock_data rt symbol error_msg)
    = list_to_set fallback_fields.
Proof. unfold get_fallback_stock_data. by rewrite dom_list_to_map_L. Qed.

(** What the body of [get_stock_data] returns, by what the provider answers
    for the history at the time of the call. *)
Lemma wrapped_by_history symbol w :
  match yf_history sv (clock w) symbol with
  | Raise e =>
      value_of (get_stock_data_wrapped rt sv symbol w)
        = Ok (get_fallback_stock_data rt symbol (exn_str e))
  | Ok [] =>
      value_of (get_stock_data_wrapped rt sv symbol w)
        = Ok (get_fallback_stock_data rt symbol "No historical data available")
  | Ok (_ :: _) =>
      ∃ current_price previous_close,
        value_of (get_stock_data_wrapped rt sv symbol w)
          = Ok (live_record rt symbol current_price previous_close
                  (try_except (yf_info sv (clock w) symbol) (λ _, ∅)))
  end.
Proof.
  unfold get_stock_data_wrapped.
  destruct (yf_history sv (clock w) symbol) as [hist|e] eqn:H.
  - destruct (history_cases hist) as [->|[[c ->]|(pre & p & c & E)]].
    + run. by rewrite (try_history_empty _ _ _ _ H).
    + exists c, c. run. by rewrite (try_history_one _ _ _ _ _ H).
    + destruct hist as [|x l]; [by destruct pre |].
      rewrite E in H.
      exists c, p. run. by rewrite (try_history_many _ _ _ _ _ _ _ H).
  - run. by rewrite (try_history_raises _ _ _ _ _ H).
Qed.

(** The empty cache and the cache after a lookup hold what the body
    returned. *)
Lemma cache_faithful_lookup symbol w :
  cache_faithful rt sv w →
  cache_faithful rt sv (world_of (get_stock_data rt sv symbol w)).
Proof.
  intros Hw. destruct (cached 300 w symbol) as [v|] eqn:H.
  - by rewrite (get_stock_data_hit _ _ _ _ _ H).
  - destruct (wrapped_run rt sv symbol w) as (r & t & E & _).
    rewrite (get_stock_data_miss _ _ _ _ _ _ H E).
    intros key stored_at r'. cbn.
    destruct (decide (symbol = key)) as [<-|Hne].
    + rewrite lookup_insert_eq. intros [= <- <-]. exists w.
      by rewrite E.
    + rewrite lookup_insert_ne by done. apply Hw.
Qed.

Lemma cache_faithful_ok w : cache_faithful rt sv w → cache_ok rt w.
Proof.
  intros Hw key stored_at r H. destruct (Hw _ _ _ H) as (w0 & _ & E).
  destruct (wrapped_run rt sv key w0) as (r' & t & E' & Hr & _).
  rewrite E' in E. by injection E as <-.
Qed.

(** C8: every record [get_fallback_stock_data] returns is a mapping from
    the seventeen field names of [fallback_fields] to scalar values, with
    the tag ["Fallback Data"], the data-limited note, the text of the error
    and the marker ["API Limited"] for its price. With a cache that holds
    what the body of [get_stock_data] returned when each record was stored,
    [get_stock_data] returns a record, built now when nothing is cached for
    the symbol and at the time it was stored otherwise, and its tag tells
    what the provider answered then: when the history had a point, the
    record is the live record of that answer, tagged
    ["Yahoo Finance (Limited)"], with the fifteen fields of [live_fields];
    when the history failed or was empty, it is the fallback record, whose
    note reaches the chat completion as a disclaimer. The code that reads a
    record, for the chat completion and for the panel of the Analyze Stock
    button, leaves the record as it was built. *)
Theorem stock_records_are_tagged (symbol : string) (w : World) :
  cache_faithful rt sv w →
  (∀ sym error_msg,
     let r := get_fallback_stock_data rt sym error_msg in
     r !! "data_source" = Some (VStr "Fallback Data") ∧
     r !! "note"
       = Some (VStr "Using AI analysis instead of real-time data due to API limitations") ∧
     r !! "error_msg" = Some (VStr ("API Error: " +:+ error_msg)) ∧
     r !! "current_price" = Some (VStr "API Limited") ∧
     dom r = list_to_set fallback_fields) ∧
  ∃ r built,
    value_of (get_stock_data rt sv symbol w) = Ok r ∧
    (cached 300 w symbol = None → built = clock w) ∧
    (∀ stored_at r0, cache w !! symbol = Some (stored_at, r0) →
       clock w < stored_at + 300 → built = stored_at ∧ r = r0) ∧
    match yf_history sv built symbol with
    | Ok (_ :: _) =>
        r !! "data_source" = Some (VStr "Yahoo Finance (Limited)") ∧
        dom r = list_to_set live_fields ∧
        ∃ current_price previous_close,
          r = live_record rt symbol current_price previous_close
                (try_except (yf_info sv built symbol) (λ _, ∅))
    | Ok [] =>
        r = get_fallback_stock_data rt symbol "No historical data available" ∧
        ∀ query s, ∃ user,
          (finance_prompt rt query s r).1
            = Ok (inr [Message "system" finance_system_fallback;
                       Message "user" user]) ∧
          str_in "Note: Real-time data unavailable due to API limits." user
            = true
    | Raise e =>
        r = get_fallback_stock_data rt symbol (exn_str e) ∧
        ∀ query s, ∃ user,
          (finance_prompt rt query s r).1
            = Ok (inr [Message "system" finance_system_fallback;
                       Message "user" user]) ∧
          str_in "Note: Real-time data unavailable due to API limits." user
            = true
    end ∧
    (∀ query s, (finance_prompt rt query s r).2 = r) ∧
    (∀ format_signed format_thousands stock_symbol,
       (StockTab.stock_panel rt format_signed format_thousands stock_symbol
          r).2.2 = r).
Proof.
  intros Hw. split.
  { intros sym error_msg. cbn zeta.
    split_and!; [done | done | done | done | apply fallback_record_fields]. }
  assert (∀ error_msg query s, ∃ user,
            (finance_prompt rt query s
               (get_fallback_stock_data rt symbol error_msg)).1
              = Ok (inr [Message "system" finance_system_fallback;
                         Message "user" user]) ∧
            str_in "Note: Real-time data unavailable due to API limits." user
              = true) as Hnote.
  { intros error_msg query s. eexists. split; [reflexivity |].
    repeat apply str_in_app_r. apply str_in_prefix. reflexivity. }
  assert (∀ r w0,
            value_of (get_stock_data_wrapped rt sv symbol w0) = Ok r →
            match yf_history sv (clock w0) symbol with
            | Ok (_ :: _) =>
                r !! "data_source" = Some (VStr "Yahoo Finance (Limited)") ∧
                dom r = list_to_set live_fields ∧
                ∃ current_price previous_close,
                  r = live_record rt symbol current_price previous_close
                        (try_except (yf_info sv (clock w0) symbol) (λ _, ∅))
            | Ok [] =>
                r = get_fallback_stock_data rt symbol
                      "No historical data available" ∧
                ∀ query s, ∃ user,
                  (finance_prompt rt query s r).1
                    = Ok (inr [Message "system" finance_system_fallback;
                               Message "user" user]) ∧
                  str_in "Note: Real-time data unavailable due to API limits."
                    user = true
            | Raise e =>
                r = get_fallback_stock_data rt symbol (exn_str e) ∧
                ∀ query s, ∃ user,
                  (finance_prompt rt query s r).1
                    = Ok (inr [Message "system" finance_system_fallback;
                               Message "user" user]) ∧
                  str_in "Note: Real-time data unavailable due to API limits."
                    user = true
            end) as Htag.
  { intros r w0 E. pose proof (wrapped_by_history symbol w0) as Hb.
    destruct (yf_history sv (clock w0) symbol) as [[|x l]|e].
    - rewrite E in Hb. injection Hb as ->. split; [done | apply Hnote].
    - destruct Hb as (c & p & Hb). rewrite E in Hb. injection Hb as ->.
      split_and!; [done | apply live_record_fields | by exists c, p].
    - rewrite E in Hb. injection Hb as ->. split; [done | apply Hnote]. }
  destruct (cached 300 w symbol) as [v|] eqn:H.
  - assert (∃ stored_at, cache w !! symbol = Some (stored_at, v) ∧
                         clock w < stored_at + 300) as (t0 & Hc & Ht0).
    { unfold cached in H.
      destruct (cache w !! symbol) as [[stored_at r0]|]; [|done].
      destruct (clock w <? stored_at + 300) eqn:Hlt; [|done].
      injection H as <-. exists stored_at. split; [done | lia]. }
    destruct (Hw _ _ _ Hc) as (w0 & Hclock & E).
    exists v, t0. rewrite (get_stock_data_hit _ _ _ _ _ H).
    split_and!.
    + done.
    + done.
    + intros stored_at r0 Hc' _. rewrite Hc in Hc'. by injection Hc' as <- <-.
    + rewrite <- Hclock. by apply Htag.
    + intros query s. apply finance_prompt_readonly.
    + intros fs ft stock_symbol. apply stock_panel_keeps_dict.
  - destruct (wrapped_run rt sv symbol w) as (r & t & E & _).
    exists r, (clock w). rewrite (get_stock_data_miss _ _ _ _ _ _ H E).
    split_and!.
    + done.
    + done.
    + intros stored_at r0 Hc Hlt. unfold cached in H. rewrite Hc in H.
      by rewrite (proj2 (Z.ltb_lt _ _) Hlt) in H.
    + apply Htag. by rewrite E.
    + intros query s. apply finance_prompt_readonly.
    + intros fs ft stock_symbol. apply stock_panel_keeps_dict.
Qed.

End Records.

(** The record of AAPL at start-up: the history has two points and the
    record is tagged as live. *)
Lemma stock_records_are_tagged_witness :
  cache_faithful Demo.runtime (Demo.services None) Demo.start ∧
  ∃ r, value_of (get_stock_data Demo.runtime (Demo.services None) "AAPL"
                   Demo.start) = Ok r ∧
       r !! "data_source" = Some (VStr "Yahoo Finance (Limited)") ∧
       ∀ query s, (finance_prompt Demo.runtime query s r).2 = r.
Proof.
  assert (cache_faithful Demo.runtime (Demo.services None) Demo.start) as Hw.
  { intros key stored_at r H. discriminate H. }
  split; [exact Hw |].
  destruct (stock_records_are_tagged Demo.runtime (Demo.services None) "AAPL"
              Demo.start Hw)
    as (_ & r & built & Hr & Hbuilt & _ & Htag & Hro & _).
  exists r. split; [exact Hr |]. split; [| exact Hro].
  rewrite (Hbuilt eq_refl) in Htag. exact (proj1 Htag).
Defined.

(** ** The session history *)

Section History.

Variable rt : Runtime.
Variable sv : Services.




End History.



(** * Further properties of the code *)

(** ** The cache *)

Section CacheFrame.

Variable rt : Runtime.
Variable sv : Services.

(** X1: a lookup stores under the symbol as given and under no other key: what
    the cache serves for any other key, now or later, is what it served
    before. Two spellings of a ticker are two keys. *)
Theorem lookup_leaves_other_keys (symbol key : string) (w : World) (dt : Z) :
  key ≠ symbol →
  cached 300 (advance dt (world_of (get_stock_data rt sv symbol w))) key
    = cached 300 (advance dt w) key.
Proof.
  intros Hne. destruct (cached 300 w symbol) as [v|] eqn:H.
  - by rewrite (get_stock_data_hit _ _ _ _ _ H).
  - destruct (wrapped_run rt sv symbol w) as (r & t & E & _).
    rewrite (get_stock_data_miss _ _ _ _ _ _ H E).
    unfold cached, world_of, advance, store. cbn.
    by rewrite lookup_insert_ne.
Qed.

(** X2: the descriptive fields are asked for only after a history with at least
    one point came back: a failed or empty history costs one call to the
    provider, a history with points costs two. *)
Theorem fields_requested_after_history (symbol : string) (w : World) :
  trace_of (get_stock_data_wrapped rt sv symbol w)
    = match yf_history sv (clock w) symbol with
      | Ok (_ :: _) => [History symbol; TickerInfo symbol]
      | _ => [History symbol]
      end.
Proof.
  unfold get_stock_data_wrapped.
  destruct (yf_history sv (clock w) symbol) as [hist|e] eqn:H.
  - destruct (history_cases hist) as [->|[[c ->]|(pre & p & c & ->)]].
    + run. by rewrite (try_history_empty _ _ _ _ H).
    + run. by rewrite (try_history_one _ _ _ _ _ H).
    + run. rewrite (try_history_many _ _ _ _ _ _ _ H). by destruct pre.
  - run. by rewrite (try_history_raises _ _ _ _ _ H).
Qed.

End CacheFrame.

(** AAPL is cached, then the lower-case spelling is looked up. *)
Lemma lookup_leaves_other_keys_witness :
  "AAPL" ≠ "aapl" ∧
  cached 300
    (advance 60
       (world_of
          (get_stock_data Demo.runtime (Demo.services None) "aapl"
             (world_of (get_stock_data Demo.runtime (Demo.services None)
                          "AAPL" Demo.start))))) "AAPL"
    = cached 300
        (advance 60
           (world_of (get_stock_data Demo.runtime (Demo.services None)
                        "AAPL" Demo.start))) "AAPL".
Proof.
  split; [discriminate |].
  apply (lookup_leaves_other_keys Demo.runtime (Demo.services None)
           "aapl" "AAPL"
           (world_of (get_stock_data Demo.runtime (Demo.services None)
                        "AAPL" Demo.start)) 60).
  discriminate.
Defined.

(** ** The requests of the agents *)

Section Requests.

Variable rt : Runtime.
Variable sv : Services.

Lemma call_groq_api_trace self msgs w :
  ∃ answer, call_groq_api sv self msgs default_model w
              = (answer, w,
                 if truthy_opt (groq_api_key self) then [post_of self msgs]
                 else []) ∧
            (truthy_opt (groq_api_key self) = false →
             answer = missing_key_message).
Proof.
  unfold call_groq_api. destruct (truthy_opt (groq_api_key self)); run.
  - by eexists.
  - by eexists.
Qed.

Lemma web_search_agent_trace self query w :
  ∃ answer, web_search_agent sv self query w
              = (answer, w,
                 WebSearchCall query ::
                 if truthy_opt (groq_api_key self) then
                   [post_of self
                      [Message "system" web_search_system;
                       Message "user"
                         ("Search for information about: " +:+ query)]]
                 else []) ∧
            (truthy_opt (groq_api_key self) = false →
             answer = missing_key_message).
Proof.
  unfold web_search_agent.
  destruct (call_groq_api_trace self
              [Message "system" web_search_system;
               Message "user" ("Search for information about: " +:+ query)] w)
    as (answer & E & Hk).
  run. rewrite E. exists answer. split; [|done].
  by destruct (truthy_opt (groq_api_key self)).
Qed.

(** The messages [finance_agent] builds from a record of [get_stock_data]:
    a system message, then a user message. *)
Lemma finance_prompt_shape query s r :
  stock_record rt r →
  ∃ system user,
    finance_prompt rt query s r
      = (Ok (inr [Message "system" system; Message "user" user]), r).
Proof.
  intros [(symbol & e & ->)|(symbol & c & p & info & ->)].
  - by do 2 eexists.
  - destruct (indicator_live rt symbol c p info) as [ind H].
    unfold finance_prompt.
    rewrite (D_bind_ok _ _ _ false (live_record rt symbol c p info))
      by reflexivity.
    cbv beta iota.
    rewrite (D_bind_ok _ _ _ (VStr "Yahoo Finance (Limited)")
               (live_record rt symbol c p info)) by reflexivity.
    assert (eq_str (VStr "Yahoo Finance (Limited)") "Fallback Data" = false)
      as -> by reflexivity.
    unfold live_messages.
    unfold mbind at 1. unfold D_bind at 1.
    rewrite (D_bind_ok _ _ _ _ _ H).
    by do 2 eexists.
Qed.

(** The events of [finance_agent] for a ticker: its own entry, what the
    lookup emits, and the post when there is a key. *)
Lemma finance_agent_trace self query symbol w :
  cache_ok rt w → truthy_opt symbol = true →
  ∃ r w1 t1 system user answer,
    get_stock_data rt sv (default "" symbol) w = (Ok r, w1, t1) ∧
    finance_agent rt sv self query symbol w
      = (Ok (VStr answer), w1,
         FinanceCall query symbol ::
         t1 ++
         if truthy_opt (groq_api_key self) then
           [post_of self [Message "system" system; Message "user" user]]
         else []) ∧
    (truthy_opt (groq_api_key self) = false → answer = missing_key_message) ∧
    (t1 = [] ∨ t1 = [History (default "" symbol)] ∨
     t1 = [History (default "" symbol); TickerInfo (default "" symbol)]).
Proof.
  intros Hw Hs.
  destruct (get_stock_data_run rt sv (default "" symbol) w Hw)
    as (r & w1 & t1 & E & Hr & Hw1 & Hclock & Ht1).
  destruct (finance_prompt_shape query (default "" symbol) r Hr)
    as (system & user & Hp).
  destruct (call_groq_api_trace self
              [Message "system" system; Message "user" user] w1)
    as (answer & E2 & Hk).
  exists r, w1, t1, system, user, answer.
  split_and!; [done | | done | done].
  unfold finance_agent. rewrite Hs.
  unfold mbind, M_bind, bind, emit. rewrite E. cbn. rewrite Hp. cbn.
  rewrite E2. cbn. by rewrite app_nil_r.
Qed.

(** X4: with a ticker and a key, [finance_agent] never takes its early return:
    whatever the record it fetched, it sends exactly one chat completion,
    made of a system and a user message, and returns the answer as a
    string. *)
Theorem finance_agent_posts_once (self : self_t) (query : string)
    (symbol : option string) (w : World) :
  cache_ok rt w → truthy_opt symbol = true →
  truthy_opt (groq_api_key self) = true →
  ∃ answer e,
    value_of (finance_agent rt sv self query symbol w) = Ok (VStr answer) ∧
    filter is_post (trace_of (finance_agent rt sv self query symbol w)) = [e] ∧
    well_formed_post self e.
Proof.
  intros Hw Hs Hk.
  destruct (finance_agent_trace self query symbol w Hw Hs)
    as (r & w1 & t1 & system & user & answer & _ & E & _ & Ht1).
  rewrite Hk in E. rewrite E. unfold value_of, trace_of. cbn [fst snd].
  exists answer, (post_of self [Message "system" system; Message "user" user]).
  split_and!; [done | | by exists system, user].
  rewrite filter_cons_False by naive_solver. rewrite filter_app.
  by destruct Ht1 as [-> | [-> | ->]].
Qed.

(** X5: without a usable key, [finance_agent] for a ticker that is not cached
    still asks the provider and caches the record, sends no chat completion,
    and returns the missing-key text. *)
Theorem finance_agent_without_key_still_fetches (self : self_t)
    (query symbol : string) (w : World) :
  cache_ok rt w → truthy symbol = true →
  truthy_opt (groq_api_key self) = false →
  cached 300 w symbol = None →
  let run := finance_agent rt sv self query (Some symbol) w in
  value_of run = Ok (VStr missing_key_message) ∧
  filter is_post (trace_of run) = [] ∧
  History symbol ∈ trace_of run ∧
  is_Some (cached 300 (world_of run) symbol).
Proof.
  intros Hw Hs Hk Hmiss. cbn zeta.
  destruct (finance_agent_trace self query (Some symbol) w Hw Hs)
    as (r & w1 & t1 & system & user & answer & E1 & E & Hanswer & _).
  destruct (wrapped_run rt sv symbol w) as (r' & t' & E' & _ & Ht').
  change (default "" (Some symbol)) with symbol in E1.
  rewrite (get_stock_data_miss _ _ _ _ _ _ Hmiss E') in E1.
  injection E1 as <- <- <-.
  rewrite Hk in E. rewrite E, (Hanswer Hk).
  unfold value_of, trace_of, world_of. cbn [fst snd].
  split_and!.
  - done.
  - rewrite app_nil_r. by destruct Ht' as [-> | ->].
  - rewrite app_nil_r. destruct Ht' as [-> | ->]; set_solver.
  - assert (cached 300 (store symbol r' w) symbol = Some r') as ->; [|done].
    unfold cached, store. cbn. rewrite lookup_insert_eq.
    by rewrite (proj2 (Z.ltb_lt _ _)) by lia.
Qed.

(** X6: without a ticker ([None] or the empty string) [finance_agent] leaves
    the market data alone: no call to the provider, the world as it was, and
    the answer of one chat completion whose user message is the query. *)
Theorem finance_agent_without_ticker (self : self_t) (query : string)
    (symbol : option string) (w : World) :
  truthy_opt symbol = false →
  let run := finance_agent rt sv self query symbol w in
  world_of run = w ∧
  filter is_provider (trace_of run) = [] ∧
  trace_of run
    = FinanceCall query symbol ::
      (if truthy_opt (groq_api_key self) then
         [post_of self
            [Message "system" finance_system_plain; Message "user" query]]
       else []) ∧
  ∃ answer, value_of run = Ok (VStr answer).
Proof.
  intros Hs. cbn zeta. unfold finance_agent. rewrite Hs.
  destruct (call_groq_api_trace self
              [Message "system" finance_system_plain; Message "user" query] w)
    as (answer & E & _).
  unfold mbind, M_bind, bind, emit. rewrite E. cbn.
  unfold value_of, trace_of, world_of. cbn [fst snd].
  split_and!; [done | | | by exists answer].
  - by destruct (truthy_opt (groq_api_key self)).
  - by rewrite app_nil_r.
Qed.

(** The events of the router, branch by branch. *)
Lemma router_trace self query symbol w :
  cache_ok rt w →
  ∃ t1 posts1 posts2,
    trace_of (multi_agent_response rt sv self query symbol w)
      = (if is_finance_query rt query && truthy_opt symbol then
           FinanceCall query symbol :: t1 ++ posts1 ++
           WebSearchCall
             ("latest news and analysis for " +:+ default "" symbol) :: posts2
         else WebSearchCall query :: posts2) ∧
    (t1 = [] ∨ t1 = [History (default "" symbol)] ∨
     t1 = [History (default "" symbol); TickerInfo (default "" symbol)]) ∧
    posts_of_one_call self posts1 ∧ posts_of_one_call self posts2.
Proof.
  intros Hw. unfold multi_agent_response, posts_of_one_call.
  destruct (is_finance_query rt query && truthy_opt symbol) eqn:Hc.
  - apply andb_true_iff in Hc as [_ Hs].
    destruct (finance_agent_trace self query symbol w Hw Hs)
      as (r & w1 & t1 & system & user & answer & _ & E1 & _ & Ht1).
    destruct (web_search_agent_trace self
                ("latest news and analysis for " +:+ default "" symbol) w1)
      as (news & E2 & _).
    unfold mbind, M_bind, bind. rewrite E1. cbn. rewrite E2. cbn.
    unfold trace_of. cbn [snd]. rewrite app_nil_r, <- app_assoc.
    exists t1. do 2 eexists. split; [reflexivity |]. split; [exact Ht1 |].
    destruct (truthy_opt (groq_api_key self)).
    + split; by do 2 eexists.
    + done.
  - destruct (web_search_agent_trace self query w) as (answer & E & _).
    unfold mbind, M_bind, bind. rewrite E. cbn.
    unfold trace_of. cbn [snd]. rewrite app_nil_r.
    exists [].
    exists (if truthy_opt (groq_api_key self) then
              [post_of self [Message "system" web_search_system;
                             Message "user"
                               ("Search for information about: " +:+ query)]]
            else []).
    eexists. split; [reflexivity |]. split; [by left |].
    destruct (truthy_opt (groq_api_key self)).
    + split; by do 2 eexists.
    + done.
Qed.

(** X7: every chat completion the router sends, directly or through an agent,
    goes to the address of the system with the key as bearer token, the
    model [llama3-70b-8192], 1000 tokens at most, and a system message
    followed by a user message. *)
Theorem every_post_is_well_formed (self : self_t) (query : string)
    (symbol : option string) (w : World) :
  cache_ok rt w →
  Forall
    (λ e, is_post e = true →
          ∃ system user,
            e = Post (groq_base_url self)
                  {| model := "llama3-70b-8192";
                     messages := [Message "system" system;
                                  Message "user" user];
                     max_tokens := 1000;
                     temperature := 0x1.6666666666666p-1%float |}
                  (list_to_map
                     [("Authorization",
                       "Bearer " +:+ default "" (groq_api_key self));
                      ("Content-Type", "application/json")]))
    (trace_of (multi_agent_response rt sv self query symbol w)).
Proof.
  intros Hw. apply Forall_forall. intros e He Hpost.
  destruct (router_trace self query symbol w Hw)
    as (t1 & posts1 & posts2 & E & Ht1 & Hposts1 & Hposts2).
  rewrite E in He. clear E.
  assert (e ∈ posts1 ∨ e ∈ posts2) as Hin.
  { destruct (is_finance_query rt query && truthy_opt symbol).
    - apply elem_of_cons in He as [-> | He]; [done |].
      apply elem_of_app in He as [He | He].
      { destruct Ht1 as [-> | [-> | ->]];
          repeat (apply elem_of_cons in He as [-> | He]; [done |]);
          by apply elem_of_nil in He. }
      apply elem_of_app in He as [He | He]; [by left |].
      apply elem_of_cons in He as [-> | He]; [done | by right].
    - apply elem_of_cons in He as [-> | He]; [done | by right]. }
  unfold posts_of_one_call in *.
  destruct (truthy_opt (groq_api_key self)).
  - destruct Hposts1 as (s1 & u1 & ->), Hposts2 as (s2 & u2 & ->).
    destruct Hin as [Hin | Hin]; apply list_elem_of_singleton in Hin;
      subst e; by do 2 eexists.
  - subst posts1 posts2.
    destruct Hin as [Hin | Hin]; by apply elem_of_nil in Hin.
Qed.

(** X8: one query to the router costs at most two chat completions and at most
    two calls to the market-data provider, and no chat completion without a
    key; in the search branch it costs no call to the provider, at most one
    chat completion, and leaves the world, cache included, as it was. *)
Theorem router_call_budget (self : self_t) (query : string)
    (symbol : option string) (w : World) :
  cache_ok rt w →
  let run := multi_agent_response rt sv self query symbol w in
  (length (filter is_post (trace_of run)) ≤ 2)%nat ∧
  (length (filter is_provider (trace_of run)) ≤ 2)%nat ∧
  (truthy_opt (groq_api_key self) = false → filter is_post (trace_of run) = []) ∧
  (is_finance_query rt query && truthy_opt symbol = false →
   filter is_provider (trace_of run) = [] ∧ world_of run = w ∧
   (length (filter is_post (trace_of run)) ≤ 1)%nat).
Proof.
  intros Hw. cbn zeta.
  destruct (router_trace self query symbol w Hw)
    as (t1 & posts1 & posts2 & E & Ht1 & Hposts1 & Hposts2).
  assert (filter is_post t1 = [] ∧ (length (filter is_provider t1) ≤ 2)%nat)
    as [Hp1 Hp2].
  { destruct Ht1 as [-> | [-> | ->]]; (split; [done | vm_compute; lia]). }
  assert (∀ posts, posts_of_one_call self posts →
            filter is_provider posts = [] ∧
            (length (filter is_post posts) ≤ 1)%nat ∧
            (truthy_opt (groq_api_key self) = false → posts = [])) as Hone.
  { intros posts Hposts. unfold posts_of_one_call in Hposts.
    destruct (truthy_opt (groq_api_key self)).
    - destruct Hposts as (? & ? & ->).
      split_and!; [done | vm_compute; lia | done].
    - subst posts. split_and!; [done | vm_compute; lia | done]. }
  destruct (Hone posts1 Hposts1) as (Hq1 & Hl1 & Hn1).
  destruct (Hone posts2 Hposts2) as (Hq2 & Hl2 & Hn2).
  assert (∀ q s, filter is_post (FinanceCall q s :: t1 ++ posts1 ++
                                 WebSearchCall
                                   ("latest news and analysis for " +:+
                                    default "" symbol) :: posts2)
                 = filter is_post posts1 ++ filter is_post posts2) as Hfp.
  { intros q s. rewrite filter_cons_False by naive_solver.
    rewrite !filter_app, Hp1. by rewrite filter_cons_False by naive_solver. }
  assert (∀ q s, filter is_provider (FinanceCall q s :: t1 ++ posts1 ++
                                     WebSearchCall
                                       ("latest news and analysis for " +:+
                                        default "" symbol) :: posts2)
                 = filter is_provider t1) as Hfq.
  { intros q s. rewrite filter_cons_False by naive_solver.
    rewrite !filter_app, Hq1. rewrite filter_cons_False by naive_solver.
    by rewrite Hq2, !app_nil_r. }
  assert (∀ q, filter is_post (WebSearchCall q :: posts2)
               = filter is_post posts2) as Hsp.
  { intros q. by rewrite filter_cons_False by naive_solver. }
  assert (∀ q, filter is_provider (WebSearchCall q :: posts2) = []) as Hsq.
  { intros q. by rewrite filter_cons_False by naive_solver. }
  rewrite E. split_and!.
  - destruct (is_finance_query rt query && truthy_opt symbol).
    + rewrite Hfp, length_app. lia.
    + rewrite Hsp. lia.
  - destruct (is_finance_query rt query && truthy_opt symbol).
    + by rewrite Hfq.
    + rewrite Hsq. cbn [length]. lia.
  - intros Hk. rewrite (Hn1 Hk), (Hn2 Hk) in *.
    destruct (is_finance_query rt query && truthy_opt symbol).
    + by rewrite Hfp.
    + by rewrite Hsp.
  - intros Hc. rewrite Hc. rewrite Hsq, Hsp. split_and!; [done | | done].
    unfold multi_agent_response. rewrite Hc.
    destruct (web_search_agent_trace self query w) as (answer & E' & _).
    unfold mbind, M_bind, bind. rewrite E'. done.
Qed.

End Requests.

(** AAPL with a key at start-up: one chat completion. *)
Lemma finance_agent_posts_once_witness :
  cache_ok Demo.runtime Demo.start ∧
  ∃ answer e,
    value_of (finance_agent Demo.runtime (Demo.services (Some "gsk"))
                (init (Demo.services (Some "gsk"))) "Is it a buy?"
                (Some "AAPL") Demo.start) = Ok (VStr answer) ∧
    filter is_post
      (trace_of (finance_agent Demo.runtime (Demo.services (Some "gsk"))
                   (init (Demo.services (Some "gsk"))) "Is it a buy?"
                   (Some "AAPL") Demo.start)) = [e].
Proof.
  assert (cache_ok Demo.runtime Demo.start) as Hw.
  { intros key stored_at r H. discriminate H. }
  split; [exact Hw |].
  destruct (finance_agent_posts_once Demo.runtime
              (Demo.services (Some "gsk")) (init (Demo.services (Some "gsk")))
              "Is it a buy?" (Some "AAPL") Demo.start Hw eq_refl eq_refl)
    as (answer & e & Hv & Ht & _).
  exists answer, e. split; [exact Hv | exact Ht].
Defined.

(** AAPL without a key at start-up: the provider is asked all the same. *)
Lemma finance_agent_without_key_still_fetches_witness :
  cache_ok Demo.runtime Demo.start ∧
  truthy_opt (groq_api_key (init (Demo.services None))) = false ∧
  cached 300 Demo.start "AAPL" = None ∧
  value_of (finance_agent Demo.runtime (Demo.services None)
              (init (Demo.services None)) "Is it a buy?" (Some "AAPL")
              Demo.start) = Ok (VStr missing_key_message) ∧
  History "AAPL"
    ∈ trace_of (finance_agent Demo.runtime (Demo.services None)
                  (init (Demo.services None)) "Is it a buy?" (Some "AAPL")
                  Demo.start).
Proof.
  assert (cache_ok Demo.runtime Demo.start) as Hw.
  { intros key stored_at r H. discriminate H. }
  split_and!; [exact Hw | reflexivity | reflexivity | |].
  - apply (finance_agent_without_key_still_fetches Demo.runtime
             (Demo.services None) (init (Demo.services None)) "Is it a buy?"
             "AAPL" Demo.start Hw eq_refl eq_refl eq_refl).
  - apply (finance_agent_without_key_still_fetches Demo.runtime
             (Demo.services None) (init (Demo.services None)) "Is it a buy?"
             "AAPL" Demo.start Hw eq_refl eq_refl eq_refl).
Defined.

(** A question to the finance agent with the ticker field left empty. *)
Lemma finance_agent_without_ticker_witness :
  truthy_opt None = false ∧
  world_of (finance_agent Demo.runtime (Demo.services (Some "gsk"))
              (init (Demo.services (Some "gsk"))) "What is a dividend?" None
              Demo.start) = Demo.start ∧
  filter is_provider
    (trace_of (finance_agent Demo.runtime (Demo.services (Some "gsk"))
                 (init (Demo.services (Some "gsk"))) "What is a dividend?"
                 None Demo.start)) = [].
Proof.
  split; [reflexivity |].
  destruct (finance_agent_without_ticker Demo.runtime
              (Demo.services (Some "gsk")) (init (Demo.services (Some "gsk")))
              "What is a dividend?" None Demo.start eq_refl)
    as (Hworld & Hprovider & _).
  split; [exact Hworld | exact Hprovider].
Defined.

(** A finance query about AAPL with a key at start-up. *)
Lemma every_post_is_well_formed_witness :
  cache_ok Demo.runtime Demo.start ∧
  Forall
    (λ e, is_post e = true →
          ∃ system user,
            e = Post "https://api.groq.com/openai/v1/chat/completions"
                  {| model := "llama3-70b-8192";
                     messages := [Message "system" system;
                                  Message "user" user];
                     max_tokens := 1000;
                     temperature := 0x1.6666666666666p-1%float |}
                  (list_to_map
                     [("Authorization", "Bearer gsk");
                      ("Content-Type", "application/json")]))
    (trace_of (multi_agent_response Demo.runtime (Demo.services (Some "gsk"))
                 (init (Demo.services (Some "gsk")))
                 "Is the AAPL stock a buy?" (Some "AAPL") Demo.start)).
Proof.
  assert (cache_ok Demo.runtime Demo.start) as Hw.
  { intros key stored_at r H. discriminate H. }
  split; [exact Hw |].
  exact (every_post_is_well_formed Demo.runtime (Demo.services (Some "gsk"))
           (init (Demo.services (Some "gsk"))) "Is the AAPL stock a buy?"
           (Some "AAPL") Demo.start Hw).
Defined.

(** The same query: two chat completions, two calls to the provider. *)
Lemma router_call_budget_witness :
  cache_ok Demo.runtime Demo.start ∧
  (length
     (filter is_post
        (trace_of (multi_agent_response Demo.runtime
                     (Demo.services (Some "gsk"))
                     (init (Demo.services (Some "gsk")))
                     "Is the AAPL stock a buy?" (Some "AAPL") Demo.start)))
   ≤ 2)%nat ∧
  (length
     (filter is_provider
        (trace_of (multi_agent_response Demo.runtime
                     (Demo.services (Some "gsk"))
                     (init (Demo.services (Some "gsk")))
                     "Is the AAPL stock a buy?" (Some "AAPL") Demo.start)))
   ≤ 2)%nat.
Proof.
  assert (cache_ok Demo.runtime Demo.start) as Hw.
  { intros key stored_at r H. discriminate H. }
  split; [exact Hw |].
  destruct (router_call_budget Demo.runtime (Demo.services (Some "gsk"))
              (init (Demo.services (Some "gsk"))) "Is the AAPL stock a buy?"
              (Some "AAPL") Demo.start Hw) as (Hposts & Hprovider & _).
  split; [exact Hposts | exact Hprovider].
Defined.

(** ** Records and prompts *)

Section RecordFacts.

Variable rt : Runtime.

(** X9: the fallback record holds no number: every field is a string, the price
    fields included, whatever the approximate price of the table row. *)
Theorem fallback_record_holds_only_strings (symbol error_msg : string) :
  map_Forall (λ _ v, ∃ s, v = VStr s)
    (get_fallback_stock_data rt symbol error_msg).
Proof.
  intros k v H. unfold get_fallback_stock_data in H.
  apply elem_of_list_to_map_2 in H.
  repeat (apply elem_of_cons in H as [[= -> ->]|H]; [by eexists |]).
  by apply elem_of_nil in H.
Qed.

(** X10: for a fallback record the chat completion gets the fallback system
    message and a user message that names the data limitation; the message
    list does not depend on the text of the provider's error. *)
Theorem fallback_prompt_hides_the_error
    (query s symbol error_msg other_error : string) :
  ∃ user,
    (finance_prompt rt query s
       (get_fallback_stock_data rt symbol error_msg)).1
      = Ok (inr [Message "system" finance_system_fallback;
                 Message "user" user]) ∧
    (finance_prompt rt query s
       (get_fallback_stock_data rt symbol other_error)).1
      = Ok (inr [Message "system" finance_system_fallback;
                 Message "user" user]) ∧
    str_in "Note: Real-time data unavailable due to API limits." user = true ∧
    str_in query user = true.
Proof.
  set (row := default {| name := symbol +:+ " Corporation";
                         sector := "Unknown"; approx_price := 100 |}
                (fallback_data !! str_upper rt symbol)).
  exists ("Analyze " +:+ s +:+ " (" +:+ name row +:+ ") in the " +:+
          sector row +:+ " sector. Query: " +:+ query +:+ nl +:+ nl +:+
          "Note: Real-time data unavailable due to API limits. Please provide analysis based on your knowledge.").
  split_and!; [reflexivity | reflexivity | |].
  - repeat apply str_in_app_r. apply str_in_prefix. reflexivity.
  - apply (str_in_app_r _ "Analyze "), (str_in_app_r _ s),
      (str_in_app_r _ " ("), (str_in_app_r _ (name row)),
      (str_in_app_r _ ") in the "), (str_in_app_r _ (sector row)),
      (str_in_app_r _ " sector. Query: ").
    apply str_in_prefix, prefix_app.
Qed.

(** X11: the trend mark of the live prompt follows the sign of the rounded price
    change, and is the flat mark for a change that is not a number; on a
    fallback record the comparison raises a [TypeError], and [finance_agent]
    never makes it there: it builds the fallback prompt instead. *)
Theorem price_change_indicator_is_guarded
    (query s symbol error_msg : string) (c p : float)
    (info : gmap string value) :
  let change := round2 rt (c - p)%float in
  (price_change_indicator (live_record rt symbol c p info)).1
    = Ok (if (0 <? change)%float then "📈"
          else if (change <? 0)%float then "📉" else "➡️") ∧
  (is_nan change = true →
   (price_change_indicator (live_record rt symbol c p info)).1 = Ok "➡️") ∧
  (price_change_indicator (get_fallback_stock_data rt symbol error_msg)).1
    = Raise (Exn "TypeError"
               "'>' not supported between instances of 'str' and 'int'") ∧
  builds_messages
    (finance_prompt rt query s (get_fallback_stock_data rt symbol error_msg))
    = true.
Proof.
  cbn zeta.
  assert ((price_change_indicator (live_record rt symbol c p info)).1
          = Ok (if (0 <? round2 rt (c - p))%float then "📈"
                else if (round2 rt (c - p) <? 0)%float then "📉"
                     else "➡️")) as Hlive.
  { unfold price_change_indicator.
    cbv [mbind D_bind d_get d_lift mret D_ret].
    assert (dict_get (live_record rt symbol c p info) "price_change" (VInt 0)
            = VFloat (round2 rt (c - p))) as Hget by reflexivity.
    rewrite Hget. cbn [gt_zero].
    destruct (0 <? round2 rt (c - p))%float; [done |].
    rewrite Hget. cbn [lt_zero].
    by destruct (round2 rt (c - p) <? 0)%float. }
  split_and!; [exact Hlive | | reflexivity | reflexivity].
  intros Hnan. rewrite Hlive. unfold is_nan in Hnan.
  apply negb_true_iff in Hnan.
  rewrite FloatAxioms.eqb_spec in Hnan. rewrite !ltb_spec.
  destruct (Prim2SF (round2 rt (c - p))) as [[]|[]| |[] m e];
    cbn in Hnan |- *; try done.
  - unfold SFeqb, SFcompare in Hnan. rewrite Z.compare_refl in Hnan.
    by rewrite Pos.compare_cont_refl in Hnan.
  - unfold SFeqb, SFcompare in Hnan. rewrite Z.compare_refl in Hnan.
    by rewrite Pos.compare_cont_refl in Hnan.
Qed.

End RecordFacts.

(** A close that is not a number: the flat mark. *)
Lemma price_change_indicator_flat_for_nan :
  is_nan (round2 Demo.runtime (nan - nan)%float) = true ∧
  (price_change_indicator (live_record Demo.runtime "HALT" nan nan ∅)).1
    = Ok "➡️".
Proof.
  split; [reflexivity |].
  apply (price_change_indicator_is_guarded Demo.runtime "" "" "HALT" ""
           nan nan ∅).
  reflexivity.
Defined.

(** ** The key, the pages and the invariant of the cache *)

Section PagesFacts.

Variable rt : Runtime.
Variable sv : Services.

(** X12: a key that is set and empty counts as a missing key: [call_groq_api]
    returns the missing-key text without posting, and the sidebar shows the
    missing-key error. *)
Theorem empty_key_counts_as_missing (msgs : list message) (mdl : string)
    (w : World) :
  getenv sv "GROQ_API_KEY" = Some "" →
  call_groq_api sv (init sv) msgs mdl w = (missing_key_message, w, []) ∧
  App.api_status sv
    = [Markdown "### API Status";
       Failure "❌ Groq API Key Missing";
       Markdown "Please add your GROQ_API_KEY to the .env file"].
Proof.
  intros H. unfold call_groq_api, App.api_status, init. cbn. by rewrite H.
Qed.


End PagesFacts.

(** [GROQ_API_KEY=] in the environment. *)
Lemma empty_key_counts_as_missing_witness :
  getenv (Demo.services (Some "")) "GROQ_API_KEY" = Some "" ∧
  call_groq_api (Demo.services (Some "")) (init (Demo.services (Some "")))
      [Message "user" "hello"] default_model Demo.start
    = (missing_key_message, Demo.start, []).
Proof.
  split; [reflexivity |].
  apply (empty_key_counts_as_missing (Demo.services (Some ""))
           [Message "user" "hello"] default_model Demo.start).
  reflexivity.
Defined.


(** ** The quick insights and the expander titles *)

Section QuickInsights.

Variable rt : Runtime.
Variable sv : Services.

Lemma map_chars_app f (a b : string) :
  map_chars f (a +:+ b) = map_chars f a +:+ map_chars f b.
Proof.
  induction a as [|c a IH]; [done |].
  change (String c a +:+ b) with (String c (a +:+ b)).
  cbn [map_chars]. by rewrite IH.
Qed.

(** When lower-casing leaves the fixed ending of the query of a
    quick-insight button as it is written, the query is a finance query,
    whatever the stock. *)
Lemma quick_insight_query_is_finance stock :
  (∃ lowered,
     str_lower rt (App.quick_insight_query stock)
       = lowered +:+ " stock with current data and recent news") →
  is_finance_query rt (App.quick_insight_query stock) = true.
Proof.
  intros [lowered Hlower]. unfold is_finance_query, finance_keywords.
  cbn [existsb]. rewrite Hlower.
  assert (str_in "stock"
            (lowered +:+ " stock with current data and recent news") = true)
    as ->; [|done].
  apply str_in_app_r, str_in_cons, str_in_prefix. reflexivity.
Qed.

(** The ASCII case mapping leaves the ending as it is. *)
Lemma ascii_lower_quick_insight_query stock :
  ascii_lower (App.quick_insight_query stock)
    = ascii_lower ("Analyze " +:+ stock) +:+
      " stock with current data and recent news".
Proof.
  unfold App.quick_insight_query, ascii_lower. by rewrite !map_chars_app.
Qed.

(** The text of the finance branch of the router. *)
Lemma router_finance_text self query symbol w :
  cache_ok rt w → is_finance_query rt query && truthy_opt symbol = true →
  ∃ finance_response web_response,
    value_of (multi_agent_response rt sv self query symbol w)
      = Ok (combined finance_response web_response).
Proof.
  intros Hw Hc. unfold multi_agent_response. rewrite Hc.
  destruct (finance_agent_run rt sv self query symbol w Hw)
    as (v & w1 & t1 & E1 & _).
  destruct (web_search_agent_run sv self
              ("latest news and analysis for " +:+ default "" symbol) w1)
    as (answer & t2 & E2 & _).
  unfold mbind, M_bind, bind. rewrite E1. cbn. rewrite E2. cbn.
  by do 2 eexists.
Qed.

(** X14: a quick-insight button, pressed for a non-empty stock with a
    well-formed cache, takes the finance branch of the router whenever
    lower-casing its query leaves the fixed ending of the query, which is
    written in lower case, as it is: the finance agent for the stock, then
    the news search for it, and a page made of the title and a text holding
    both headers. *)
Theorem quick_insights_take_the_finance_branch (self : self_t)
    (stock : string) (w : World) :
  (∃ lowered,
     str_lower rt (App.quick_insight_query stock)
       = lowered +:+ " stock with current data and recent news") →
  cache_ok rt w → truthy stock = true →
  let run := App.quick_insight rt sv self stock w in
  filter is_agent_call (trace_of run)
    = [FinanceCall (App.quick_insight_query stock) (Some stock);
       WebSearchCall ("latest news and analysis for " +:+ stock)] ∧
  ∃ text,
    value_of run
      = Ok [Markdown ("### " +:+ stock +:+ " Analysis"); Markdown text] ∧
    str_in financial_header text = true ∧
    str_in news_header text = true.
Proof.
  intros Hlower Hw Hs. cbn zeta.
  assert (is_finance_query rt (App.quick_insight_query stock)
          && truthy_opt (Some stock) = true) as Hc.
  { by rewrite (quick_insight_query_is_finance stock Hlower). }
  destruct (router_trace rt sv self (App.quick_insight_query stock)
              (Some stock) w Hw)
    as (t1 & posts1 & posts2 & E & Ht1 & Hposts1 & Hposts2).
  destruct (router_finance_text self (App.quick_insight_query stock)
              (Some stock) w Hw Hc) as (f & n & Hv).
  rewrite Hc in E. unfold App.quick_insight.
  destruct (multi_agent_response rt sv self (App.quick_insight_query stock)
              (Some stock) w) as [[r w1] t] eqn:Hrun.
  unfold value_of, trace_of in *. cbn [fst snd] in *. subst r t.
  unfold mbind, M_bind, bind. rewrite Hrun. cbn -[filter]. split.
  - rewrite app_nil_r.
    assert (∀ posts, posts_of_one_call self posts →
              filter is_agent_call posts = []) as Hone.
    { intros posts Hposts. unfold posts_of_one_call in Hposts.
      destruct (truthy_opt (groq_api_key self));
        [by destruct Hposts as (? & ? & ->) | by subst posts]. }
    rewrite filter_cons_True by done.
    rewrite !filter_app, (Hone posts1 Hposts1).
    rewrite filter_cons_True by done. rewrite (Hone posts2 Hposts2).
    by destruct Ht1 as [-> | [-> | ->]].
  - exists (combined f n).
    split; [done |].
    split; [exact (combined_financial_header f n)
           | exact (combined_news_header f n)].
Qed.

End QuickInsights.

(** The NVDA button at start-up. *)
Lemma quick_insights_take_the_finance_branch_witness :
  str_lower Demo.runtime (App.quick_insight_query "NVDA")
    = "analyze nvda" +:+ " stock with current data and recent news" ∧
  cache_ok Demo.runtime Demo.start ∧ truthy "NVDA" = true ∧
  filter is_agent_call
    (trace_of (App.quick_insight Demo.runtime (Demo.services (Some "gsk"))
                 (init (Demo.services (Some "gsk"))) "NVDA" Demo.start))
    = [FinanceCall "Analyze NVDA stock with current data and recent news"
         (Some "NVDA");
       WebSearchCall "latest news and analysis for NVDA"].
Proof.
  assert (cache_ok Demo.runtime Demo.start) as Hw.
  { intros key stored_at r H. discriminate H. }
  split_and!; [reflexivity | exact Hw | reflexivity |].
  apply (quick_insights_take_the_finance_branch Demo.runtime
           (Demo.services (Some "gsk")) (init (Demo.services (Some "gsk")))
           "NVDA" Demo.start (ex_intro _ "analyze nvda" eq_refl) Hw eq_refl).
Defined.

Section Tables.

(** X15: the stocks of the quick-insight buttons are exactly the tickers of the
    fallback table: for each of them, spelled as on its button, a provider
    outage gives the company's own name and never the generic
    ["<symbol> Corporation"]. *)
Theorem popular_stocks_have_fallback_rows :
  (∀ stock, stock ∈ App.popular_stocks ↔ is_Some (fallback_data !! stock)) ∧
  Forall
    (λ stock, ∀ rt error_msg,
       str_upper rt stock = stock →
       ∃ row,
         fallback_data !! stock = Some row ∧
         get_fallback_stock_data rt stock error_msg !! "company_name"
           = Some (VStr (name row)) ∧
         get_fallback_stock_data rt stock error_msg !! "sector"
           = Some (VStr (sector row)) ∧
         name row ≠ stock +:+ " Corporation")
    App.popular_stocks.
Proof.
  split.
  - intros stock. rewrite <- not_eq_None_Some, fallback_data_keys.
    unfold App.popular_stocks.
    destruct (decide (stock ∈ ["AAPL"; "GOOGL"; "MSFT"; "NVDA"; "TSLA"; "AMZN"]))
      as [Hin | Hout]; rewrite !elem_of_cons, !elem_of_nil in *; tauto.
  - unfold App.popular_stocks.
    repeat (apply Forall_cons; split;
      [intros rt error_msg H; eexists;
       (split_and!;
         [reflexivity
         | unfold get_fallback_stock_data; rewrite H; reflexivity
         | unfold get_fallback_stock_data; rewrite H; reflexivity
         | discriminate]) |]).
    apply Forall_nil_2.
Qed.

(** [s[:n]] is a beginning of [s] that ends between two code points. *)
Lemma take_chars_prefix (n : nat) (s : string) :
  ∃ rest, s = take_chars n s +:+ rest ∧ at_boundary rest = true.
Proof.
  revert n. induction s as [|c s IH]; intros n; [by exists "" |].
  cbn [take_chars]. destruct (utf8_continuation c) eqn:Hc.
  - destruct (IH n) as (rest & H & Hb). exists rest. split; [|done].
    change (String c (take_chars n s) +:+ rest)
      with (String c (take_chars n s +:+ rest)). by rewrite <- H.
  - destruct n as [|n].
    + exists (String c s). split; [done |]. cbn. by rewrite Hc.
    + destruct (IH n) as (rest & H & Hb). exists rest. split; [|done].
      change (String c (take_chars n s) +:+ rest)
        with (String c (take_chars n s +:+ rest)). by rewrite <- H.
Qed.

(** It holds [n] code points, or all of them when [s] has fewer. *)
Lemma take_chars_len (n : nat) (s : string) :
  str_len (take_chars n s) = (n `min` str_len s)%nat.
Proof.
  revert n. induction s as [|c s IH]; intros n; [cbn; lia |].
  cbn [take_chars str_len]. destruct (utf8_continuation c) eqn:Hc.
  - cbn [str_len]. by rewrite Hc, IH.
  - destruct n as [|n]; [done |]. cbn [str_len]. rewrite Hc, IH. lia.
Qed.

(** It is all of [s] when [s] has at most [n] code points. *)
Lemma take_chars_short (n : nat) (s : string) :
  (str_len s ≤ n)%nat → take_chars n s = s.
Proof.
  revert n. induction s as [|c s IH]; intros n H; [done |].
  cbn [str_len] in H. cbn [take_chars].
  destruct (utf8_continuation c).
  - by rewrite IH.
  - destruct n as [|n]; [lia |]. rewrite IH by lia. done.
Qed.

(** X16: the title of an expander of [display_chat_history] is the number of
    the pair in the shown window, the beginning of the query that holds its
    first fifty characters (all of them when it has fewer) and ends between
    two characters, and always three dots: a query of at most fifty
    characters, whatever its length in bytes, appears in full, followed by
    the dots although nothing was cut. *)
Theorem expander_titles (i : nat) (query response : string) :
  ∃ shown cut_off,
    SimpleApp.show_pair i (query, response)
      = Expander
          ("Query " +:+ pretty (i + 1)%nat +:+ ": " +:+ shown +:+ "...")
          ["**Query:** " +:+ query; "**Response:** " +:+ response] ∧
    query = shown +:+ cut_off ∧
    str_len shown = (50 `min` str_len query)%nat ∧
    at_boundary cut_off = true ∧
    ((str_len query ≤ 50)%nat → shown = query ∧ cut_off = "") ∧
    ((50 < str_len query)%nat → str_len shown = 50%nat ∧ cut_off ≠ "").
Proof.
  destruct (take_chars_prefix 50 query) as (rest & H & Hb).
  exists (take_chars 50 query), rest.
  split_and!; [done | done | apply take_chars_len | done | |].
  - intros Hshort. rewrite (take_chars_short _ _ Hshort) in H |- *.
    split; [done |]. clear Hb Hshort.
    induction query as [|c q IH]; [by destruct rest |].
    apply IH. by injection H.
  - intros Hlong. rewrite take_chars_len. split; [lia |].
    intros ->.
    assert (∀ a : string, a +:+ "" = a) as Hnil.
    { intros a. induction a as [|c a IH]; [done |].
      change (String c a +:+ "") with (String c (a +:+ "")). by rewrite IH. }
    rewrite Hnil in H.
    pose proof (take_chars_len 50 query) as Hlen.
    rewrite <- H in Hlen. lia.
Qed.

End Tables.

(** A short query, a query of sixty letters, and a query of thirty
    two-byte letters, which is shown in full. *)
Lemma expander_titles_examples :
  SimpleApp.show_pair 0 ("NVDA news", "none")
    = Expander "Query 1: NVDA news..."
        ["**Query:** NVDA news"; "**Response:** none"] ∧
  take_chars 50
    "abcdefghijklmnopqrstuvwxyzabcdefghijklmnopqrstuvwxyzabcdefgh"
    = "abcdefghijklmnopqrstuvwxyzabcdefghijklmnopqrstuvwx" ∧
  take_chars 3 "é📊ab" = "é📊a" ∧
  String.length "éééééééééééééééééééééééééééééé" = 60%nat ∧
  str_len "éééééééééééééééééééééééééééééé" = 30%nat ∧
  take_chars 50 "éééééééééééééééééééééééééééééé"
    = "éééééééééééééééééééééééééééééé".
Proof. split_and!; reflexivity. Qed.

(** ** The keyword test, the history and the search pages *)

Section MoreFacts.

Variable rt : Runtime.
Variable sv : Services.

Lemma prefix_split (p s : string) :
  String.prefix p s = true ↔ ∃ b, s = p +:+ b.
Proof.
  split.
  - revert s. induction p as [|c p IH]; intros s H; [by exists s |].
    destruct s as [|d s]; [done |]. cbn in H.
    destruct (Ascii.ascii_dec c d) as [-> |]; [|done].
    destruct (IH s H) as [b ->]. by exists b.
  - intros [b ->]. apply prefix_app.
Qed.

Lemma str_in_split (p s : string) :
  str_in p s = true ↔ ∃ a b, s = a +:+ p +:+ b.
Proof.
  split.
  - induction s as [|c s IH]; cbn [str_in]; intros H.
    + rewrite orb_false_r in H. apply prefix_split in H as [b H].
      by exists "", b.
    + apply orb_true_iff in H as [H | H].
      * apply prefix_split in H as [b H]. by exists "", b.
      * destruct (IH H) as (a & b & ->). by exists (String c a), b.
  - intros (a & b & ->). apply str_in_here.
Qed.

(** X17: the router takes a query for a finance query exactly when its
    lower-cased text can be cut into a beginning, one of the eight keywords
    and an end: the keyword may stand inside a longer word. *)
Theorem finance_query_contains_a_keyword (query : string) :
  is_finance_query rt query = true ↔
  ∃ keyword before after,
    keyword ∈ ["stock"; "price"; "financial"; "investment"; "market";
               "analyst"; "recommendation"; "earnings"] ∧
    str_lower rt query = before +:+ keyword +:+ after.
Proof.
  rewrite is_finance_query_spec. unfold finance_keywords. split.
  - intros (keyword & Hin & H). apply str_in_split in H as (a & b & H).
    by exists keyword, a, b.
  - intros (keyword & a & b & Hin & H). exists keyword. split; [done |].
    apply str_in_split. by exists a, b.
Qed.

(** X3: a lookup that reaches the provider returns the fallback record exactly
    when the history raises or is empty; otherwise it returns the live
    record of the last close and the close before it (the last close again
    for a history of one point): older closes play no part. *)
Theorem live_record_of_the_last_two_closes (symbol : string) (w : World) :
  let info := try_except (yf_info sv (clock w) symbol) (λ _, ∅) in
  value_of (get_stock_data_wrapped rt sv symbol w)
    = Ok match yf_history sv (clock w) symbol with
         | Raise e => get_fallback_stock_data rt symbol (exn_str e)
         | Ok hist =>
             match reverse hist with
             | [] => get_fallback_stock_data rt symbol
                       "No historical data available"
             | [c] => live_record rt symbol c c info
             | c :: p :: _ => live_record rt symbol c p info
             end
         end.
Proof.
  cbn zeta. unfold get_stock_data_wrapped.
  destruct (yf_history sv (clock w) symbol) as [hist|e] eqn:H.
  - destruct (history_cases hist) as [->|[[c ->]|(pre & p & c & ->)]].
    + run. by rewrite (try_history_empty _ _ _ _ H).
    + run. by rewrite (try_history_one _ _ _ _ _ H).
    + run. rewrite (try_history_many _ _ _ _ _ _ _ H).
      by rewrite reverse_app.
  - run. by rewrite (try_history_raises _ _ _ _ _ H).
Qed.

(** X18: the search tab, its trending topics and the market overview reach the
    web search agent only, whatever the text: no finance agent, no call to
    the provider, the world as it was; an empty search text does
    nothing. *)
Theorem search_pages_use_the_search_agent_only (self : self_t)
    (search_query : string) (w : World) :
  let pages :=
    App.search_web sv self search_query ::
    App.market_overview sv self ::
    (App.topic_search sv self <$> App.topics) in
  Forall
    (λ page : M (list widget),
       (∃ query, filter is_agent_call (trace_of (page w))
                   = [WebSearchCall query]
        ∨ trace_of (page w) = []) ∧
       filter is_provider (trace_of (page w)) = [] ∧
       world_of (page w) = w)
    pages ∧
  (truthy search_query = false →
   App.search_web sv self search_query w = ([], w, [])) ∧
  (truthy search_query = true →
   filter is_agent_call (trace_of (App.search_web sv self search_query w))
     = [WebSearchCall search_query]).
Proof.
  cbn zeta.
  assert (∀ query (k : string → M (list widget)),
            (∀ answer w1, k answer w1 = (value_of (k answer w1), w1, [])) →
            let page := web_search_agent sv self query ≫= k in
            filter is_agent_call (trace_of (page w)) = [WebSearchCall query] ∧
            filter is_provider (trace_of (page w)) = [] ∧
            world_of (page w) = w) as Hpage.
  { intros query k Hk. cbn zeta.
    destruct (web_search_agent_trace sv self query w) as (answer & E & _).
    unfold mbind, M_bind, bind. rewrite E, (Hk answer w).
    unfold trace_of, world_of. cbn [fst snd]. rewrite app_nil_r.
    by destruct (truthy_opt (groq_api_key self)). }
  split_and!.
  - apply Forall_cons. split.
    { unfold App.search_web. destruct (truthy search_query).
      - destruct (Hpage search_query
                    (λ response,
                       mret [Markdown "### Search Results"; Markdown response]))
          as (H1 & H2 & H3); [done |].
        split_and!; [exists search_query; by left | done | done].
      - split_and!; [exists ""; by right | done | done]. }
    apply Forall_cons. split.
    { destruct (Hpage
                  "Get current market overview including major indices performance and market sentiment"
                  (λ response, mret [Markdown response]))
        as (H1 & H2 & H3); [done |].
      split_and!; [eexists; by left | done | done]. }
    unfold App.topics. cbn [fmap list_fmap].
    repeat (apply Forall_cons; split;
      [match goal with
       | |- context [App.topic_search sv self (?name, ?query)] =>
           destruct (Hpage query
                       (λ response,
                          mret [Markdown ("### " +:+ name +:+ " Results");
                                Markdown response]))
             as (H1 & H2 & H3); [done |];
           split_and!; [exists query; by left | done | done]
       end |]).
    apply Forall_nil_2.
  - intros H. unfold App.search_web. by rewrite H.
  - intros H. unfold App.search_web. rewrite H.
    by destruct (Hpage search_query
                   (λ response,
                      mret [Markdown "### Search Results"; Markdown response]))
      as (H1 & _); [done |].
Qed.

End MoreFacts.

(** The price field of a fallback record. *)
Lemma fallback_record_holds_only_strings_witness :
  get_fallback_stock_data Demo.runtime "TSLA" "timeout" !! "current_price"
    = Some (VStr "API Limited") ∧
  ∃ s, VStr "API Limited" = VStr s.
Proof.
  split; [reflexivity |].
  apply (fallback_record_holds_only_strings Demo.runtime "TSLA" "timeout"
           "current_price" (VStr "API Limited")).
  reflexivity.
Defined.

(** ** The Analyze Stock button *)

Section StockTabFacts.

Variable rt : Runtime.
Variable sv : Services.
Variable format_signed : value → string.
Variable format_thousands : Z → string.

(** The metric cards need three fields and nothing else. *)
Lemma metrics_run (d : gmap string value) :
  is_Some (d !! "current_price") → is_Some (d !! "market_cap") →
  is_Some (d !! "pe_ratio") →
  ∃ shown, StockTab.metrics rt format_signed format_thousands d
             = (shown, (Ok tt, d)).
Proof.
  intros [cp Hcp] [mc Hmc] [pe Hpe].
  unfold StockTab.metrics, mbind, StockTab.P_bind, StockTab.p_getitem,
    StockTab.p_get, StockTab.p_lift, StockTab.display, d_getitem, d_get,
    getitem.
  rewrite Hcp.
  destruct (negb (eq_str cp "API Limited")); cbn; rewrite ?Hcp; cbn;
    rewrite Hmc; cbn;
    (destruct (negb (eq_str mc "API Limited") && negb (eq_str mc "N/A"));
       [destruct (StockTab.as_int mc) |]); cbn; rewrite Hpe; cbn;
    by eexists.
Qed.

(** The panel of a record [get_stock_data] built is shown without an
    exception. *)
Lemma stock_panel_run stock_symbol r :
  stock_record rt r →
  ∃ shown, StockTab.stock_panel rt format_signed format_thousands
             stock_symbol r = (shown, (Ok tt, r)).
Proof.
  intros [(symbol & e & ->)|(symbol & c & p & info & ->)].
  - by eexists.
  - destruct (metrics_run (live_record rt symbol c p info))
      as [shown H]; [by eexists | by eexists | by eexists |].
    unfold StockTab.stock_panel, mbind, StockTab.P_bind, StockTab.p_getitem,
      StockTab.p_get, StockTab.p_lift, StockTab.display, d_getitem, d_get.
    assert (getitem (live_record rt symbol c p info) "company_name"
            = Ok (dict_get info "longName" (VStr symbol))) as -> by reflexivity.
    assert (dict_get (live_record rt symbol c p info) "data_source" VNone
            = VStr "Yahoo Finance (Limited)") as -> by reflexivity.
    assert (eq_str (VStr "Yahoo Finance (Limited)") "Fallback Data" = false)
      as -> by reflexivity.
    rewrite H. by eexists.
Qed.

(** What [finance_agent] does for a ticker, from the lookup it makes. *)
Lemma finance_agent_after_lookup self query symbol w r w1 t1 :
  truthy symbol = true →
  get_stock_data rt sv symbol w = (Ok r, w1, t1) → stock_record rt r →
  ∃ answer posts,
    finance_agent rt sv self query (Some symbol) w
      = (Ok (VStr answer), w1, FinanceCall query (Some symbol) :: t1 ++ posts) ∧
    filter is_provider posts = [] ∧ filter is_agent_call posts = [].
Proof.
  intros Hs E Hr.
  destruct (finance_prompt_shape rt query symbol r Hr) as (system & user & Hp).
  destruct (call_groq_api_trace sv self
              [Message "system" system; Message "user" user] w1)
    as (answer & E2 & _).
  exists answer,
         (if truthy_opt (groq_api_key self) then
            [post_of self [Message "system" system; Message "user" user]]
          else []).
  split_and!.
  - unfold finance_agent. cbn [truthy_opt default]. rewrite Hs.
    unfold mbind, M_bind, bind, emit.
    change (id symbol) with symbol. cbv beta iota zeta.
    rewrite E. cbn. rewrite Hp. cbn. rewrite E2. cbn. by rewrite app_nil_r.
  - by destruct (truthy_opt (groq_api_key self)).
  - by destruct (truthy_opt (groq_api_key self)).
Qed.

Lemma cache_ok_advance dt w : cache_ok rt w → cache_ok rt (advance dt w).
Proof. intros Hw key stored_at r H. exact (Hw key stored_at r H). Qed.

(** The run of the handler, from its two lookups. *)
Lemma analyze_stock_run self stock_symbol a elapsed w :
  cache_ok rt w → truthy stock_symbol = true →
  ∃ r w1 t1 r2 w3 t2 shown answer posts,
    get_stock_data rt sv stock_symbol w = (Ok r, w1, t1) ∧
    get_stock_data rt sv stock_symbol (advance elapsed w1) = (Ok r2, w3, t2) ∧
    StockTab.stock_panel rt format_signed format_thousands stock_symbol r
      = (shown, (Ok tt, r)) ∧
    StockTab.analyze_stock rt sv format_signed format_thousands self
      stock_symbol a elapsed w
      = ((shown ++ [StockTab.Plain (Markdown "### 🔍 AI Analysis");
                    StockTab.Plain (Markdown answer)], Ok tt), w3,
         t1 ++
         FinanceCall (StockTab.queries a stock_symbol) (Some stock_symbol) ::
         t2 ++ posts) ∧
    filter is_provider posts = [] ∧ filter is_agent_call posts = [] ∧
    (t1 = [] ∨ t1 = [History stock_symbol] ∨
     t1 = [History stock_symbol; TickerInfo stock_symbol]) ∧
    (t2 = [] ∨ t2 = [History stock_symbol] ∨
     t2 = [History stock_symbol; TickerInfo stock_symbol]).
Proof.
  intros Hw Hs.
  destruct (get_stock_data_run rt sv stock_symbol w Hw)
    as (r & w1 & t1 & E1 & Hr & Hw1 & _ & Ht1).
  destruct (get_stock_data_run rt sv stock_symbol (advance elapsed w1)
              (cache_ok_advance elapsed w1 Hw1))
    as (r2 & w3 & t2 & E2 & Hr2 & _ & _ & Ht2).
  destruct (stock_panel_run stock_symbol r Hr) as [shown Hpanel].
  destruct (finance_agent_after_lookup self (StockTab.queries a stock_symbol)
              stock_symbol (advance elapsed w1) r2 w3 t2 Hs E2 Hr2)
    as (answer & posts & Efin & Hp1 & Hp2).
  exists r, w1, t1, r2, w3, t2, shown, answer, posts.
  split_and!; [done | done | done | | done | done | done | done].
  unfold StockTab.analyze_stock. rewrite Hs.
  unfold mbind at 1. unfold M_bind at 1. unfold bind at 1. rewrite E1.
  rewrite Hpanel.
  unfold mbind, M_bind, bind, elapse. rewrite Efin. cbn.
  by rewrite app_nil_r.
Qed.

(** X19: one press of the Analyze Stock button, with a well-formed cache and
    a non-empty symbol, looks the symbol up twice: in the handler, and again
    in [finance_agent] after some time has passed. The calls to the provider
    are those of the two lookups, four at most; the handler ends without an
    exception and enters the finance agent once, with the query of the
    chosen analysis. When the first lookup found nothing cached, the second
    is served from the cache if less than 300 seconds have passed, and asks
    the provider again otherwise. When the first lookup was served from the
    cache, the second is too as long as the entry has not expired in the
    meantime, and asks the provider when it has. *)
Theorem analyze_stock_second_lookup (self : self_t) (stock_symbol : string)
    (a : StockTab.analysis_type) (elapsed : Z) (w : World) :
  cache_ok rt w → truthy stock_symbol = true →
  let run :=
    StockTab.analyze_stock rt sv format_signed format_thousands self
      stock_symbol a elapsed w in
  let first := get_stock_data rt sv stock_symbol w in
  let second :=
    get_stock_data rt sv stock_symbol (advance elapsed (world_of first)) in
  filter is_provider (trace_of run)
    = filter is_provider (trace_of first) ++
      filter is_provider (trace_of second) ∧
  (length (filter is_provider (trace_of run)) ≤ 4)%nat ∧
  (value_of run).2 = Ok tt ∧
  filter is_agent_call (trace_of run)
    = [FinanceCall (StockTab.queries a stock_symbol) (Some stock_symbol)] ∧
  (cached 300 w stock_symbol = None →
   (elapsed < 300 → trace_of second = []) ∧
   (300 ≤ elapsed → filter is_provider (trace_of second) ≠ [])) ∧
  (∀ stored_at r, cache w !! stock_symbol = Some (stored_at, r) →
     clock w < stored_at + 300 →
     trace_of first = [] ∧
     (clock w + elapsed < stored_at + 300 → trace_of second = []) ∧
     (stored_at + 300 ≤ clock w + elapsed →
      filter is_provider (trace_of second) ≠ [])).
Proof.
  intros Hw Hs. cbn zeta.
  destruct (analyze_stock_run self stock_symbol a elapsed w Hw Hs)
    as (r & w1 & t1 & r2 & w3 & t2 & shown & answer & posts
        & E1 & E2 & _ & Erun & Hp1 & Hp2 & Ht1 & Ht2).
  rewrite Erun, E1. unfold trace_of, value_of, world_of. cbn [fst snd].
  rewrite E2. cbn [fst snd].
  assert (filter is_provider
            (t1 ++ FinanceCall (StockTab.queries a stock_symbol)
                     (Some stock_symbol) :: t2 ++ posts)
          = filter is_provider t1 ++ filter is_provider t2) as Hprov.
  { rewrite filter_app, filter_cons_False by naive_solver.
    by rewrite filter_app, Hp1, app_nil_r. }
  split_and!.
  - exact Hprov.
  - rewrite Hprov, length_app.
    destruct Ht1 as [-> | [-> | ->]], Ht2 as [-> | [-> | ->]];
      vm_compute; lia.
  - done.
  - rewrite filter_app, filter_cons_True by done.
    rewrite filter_app, Hp2, app_nil_r.
    by destruct Ht1 as [-> | [-> | ->]], Ht2 as [-> | [-> | ->]].
  - intros Hmiss.
    destruct (wrapped_run rt sv stock_symbol w) as (r' & t' & E' & _).
    rewrite (get_stock_data_miss _ _ _ _ _ _ Hmiss E') in E1.
    injection E1 as <- <- <-. split.
    + intros Hdt.
      rewrite (get_stock_data_hit _ _ _ _ _
                 (cached_store w stock_symbol r' elapsed Hdt)) in E2.
      by injection E2 as <- <- <-.
    + intros Hdt.
      assert (cached 300 (advance elapsed (store stock_symbol r' w))
                stock_symbol = None) as Hexp.
      { unfold cached. cbn. rewrite lookup_insert_eq.
        by rewrite (proj2 (Z.ltb_ge _ _)) by lia. }
      destruct (wrapped_run rt sv stock_symbol
                  (advance elapsed (store stock_symbol r' w)))
        as (r'' & t'' & E'' & _ & Ht'').
      rewrite (get_stock_data_miss _ _ _ _ _ _ Hexp E'') in E2.
      injection E2 as <- <- <-. by destruct Ht'' as [-> | ->].
  - intros stored_at r0 Hc Hlt.
    assert (cached 300 w stock_symbol = Some r0) as Hhit.
    { unfold cached. rewrite Hc. by rewrite (proj2 (Z.ltb_lt _ _) Hlt). }
    rewrite (get_stock_data_hit _ _ _ _ _ Hhit) in E1.
    injection E1 as <- <- <-. split_and!.
    + done.
    + intros Hdt.
      assert (cached 300 (advance elapsed w) stock_symbol = Some r0) as Hhit2.
      { unfold cached. cbn. rewrite Hc.
        by rewrite (proj2 (Z.ltb_lt _ _)) by lia. }
      rewrite (get_stock_data_hit _ _ _ _ _ Hhit2) in E2.
      by injection E2 as <- <- <-.
    + intros Hdt.
      assert (cached 300 (advance elapsed w) stock_symbol = None) as Hexp.
      { unfold cached. cbn. rewrite Hc.
        by rewrite (proj2 (Z.ltb_ge _ _)) by lia. }
      destruct (wrapped_run rt sv stock_symbol (advance elapsed w))
        as (r'' & t'' & E'' & _ & Ht'').
      rewrite (get_stock_data_miss _ _ _ _ _ _ Hexp E'') in E2.
      injection E2 as <- <- <-. by destruct Ht'' as [-> | ->].
Qed.

(** X20: when the provider cannot give the history of a symbol that is not
    cached, the Analyze Stock button shows the title with the company of
    the fallback record, the warning with the data-limited note, the company
    and the sector, and below them the analysis of the finance agent,
    however long the second lookup comes after the first; it ends without
    an exception. *)
Theorem analyze_stock_shows_the_fallback_note (self : self_t)
    (stock_symbol : string) (a : StockTab.analysis_type) (elapsed : Z)
    (w : World) (e : exn) :
  truthy stock_symbol = true → cached 300 w stock_symbol = None →
  yf_history sv (clock w) stock_symbol = Raise e →
  let row :=
    default {| name := stock_symbol +:+ " Corporation"; sector := "Unknown";
               approx_price := 100 |}
            (fallback_data !! str_upper rt stock_symbol) in
  ∃ analysis,
    value_of (StockTab.analyze_stock rt sv format_signed format_thousands
                self stock_symbol a elapsed w)
      = ([StockTab.Plain
            (Markdown ("### 📈 " +:+ name row +:+ " (" +:+ stock_symbol +:+ ")"));
          StockTab.Warning
            "⚠️ API Rate Limited: Using AI analysis instead of real-time data due to API limitations";
          StockTab.Notice ("**Company**: " +:+ name row);
          StockTab.Notice ("**Sector**: " +:+ sector row);
          StockTab.Plain (Markdown "### 🔍 AI Analysis");
          StockTab.Plain (Markdown analysis)], Ok tt).
Proof.
  intros Hs Hmiss Hhist. cbn zeta.
  set (r := get_fallback_stock_data rt stock_symbol (exn_str e)).
  assert (get_stock_data rt sv stock_symbol w
          = (Ok r, store stock_symbol r w, [History stock_symbol])) as E.
  { apply get_stock_data_miss; [done |].
    unfold get_stock_data_wrapped. run.
    by rewrite (try_history_raises _ _ _ _ _ Hhist). }
  assert (∃ r2 w3 t2,
            get_stock_data rt sv stock_symbol
              (advance elapsed (store stock_symbol r w)) = (Ok r2, w3, t2) ∧
            stock_record rt r2) as (r2 & w3 & t2 & E2 & Hr2).
  { destruct (decide (elapsed < 300)) as [Hdt | Hdt].
    - exists r, (advance elapsed (store stock_symbol r w)), [].
      split; [| left; by do 2 eexists].
      apply get_stock_data_hit. by apply cached_store.
    - assert (cached 300 (advance elapsed (store stock_symbol r w))
                stock_symbol = None) as Hexp.
      { unfold cached. cbn. rewrite lookup_insert_eq.
        by rewrite (proj2 (Z.ltb_ge _ _)) by lia. }
      destruct (wrapped_run rt sv stock_symbol
                  (advance elapsed (store stock_symbol r w)))
        as (r2 & t2 & E2 & Hr2 & _).
      exists r2, (store stock_symbol r2
                    (advance elapsed (store stock_symbol r w))), t2.
      split; [| done]. by apply get_stock_data_miss. }
  destruct (finance_agent_after_lookup self (StockTab.queries a stock_symbol)
              stock_symbol (advance elapsed (store stock_symbol r w))
              r2 w3 t2 Hs E2 Hr2)
    as (answer & posts & Efin & _).
  exists answer.
  unfold StockTab.analyze_stock. rewrite Hs.
  unfold mbind at 1. unfold M_bind at 1. unfold bind at 1. rewrite E.
  assert (StockTab.stock_panel rt format_signed format_thousands
            stock_symbol r
          = ([StockTab.Plain
                (Markdown ("### 📈 " +:+ name (default
                    {| name := stock_symbol +:+ " Corporation";
                       sector := "Unknown"; approx_price := 100 |}
                    (fallback_data !! str_upper rt stock_symbol)) +:+
                  " (" +:+ stock_symbol +:+ ")"));
              StockTab.Warning
                "⚠️ API Rate Limited: Using AI analysis instead of real-time data due to API limitations";
              StockTab.Notice ("**Company**: " +:+ name (default
                    {| name := stock_symbol +:+ " Corporation";
                       sector := "Unknown"; approx_price := 100 |}
                    (fallback_data !! str_upper rt stock_symbol)));
              StockTab.Notice ("**Sector**: " +:+ sector (default
                    {| name := stock_symbol +:+ " Corporation";
                       sector := "Unknown"; approx_price := 100 |}
                    (fallback_data !! str_upper rt stock_symbol)))],
             (Ok tt, r)))
    as -> by reflexivity.
  clearbody r.
  unfold mbind, M_bind, bind, elapse. rewrite Efin. reflexivity.
Qed.

End StockTabFacts.

(** AAPL at start-up, with a key, the analysis coming ten seconds after the
    panel: the provider is asked by the first lookup only. *)
Lemma analyze_stock_second_lookup_witness :
  cache_ok Demo.runtime Demo.start ∧ truthy "AAPL" = true ∧
  filter is_provider
    (trace_of (StockTab.analyze_stock Demo.runtime
                 (Demo.services (Some "gsk")) (format_value Demo.runtime)
                 pretty (init (Demo.services (Some "gsk"))) "AAPL"
                 StockTab.Complete 10 Demo.start))
    = filter is_provider
        (trace_of (get_stock_data Demo.runtime (Demo.services (Some "gsk"))
                     "AAPL" Demo.start)) ++
      filter is_provider
        (trace_of (get_stock_data Demo.runtime (Demo.services (Some "gsk"))
                     "AAPL"
                     (advance 10
                        (world_of
                           (get_stock_data Demo.runtime
                              (Demo.services (Some "gsk")) "AAPL"
                              Demo.start))))) ∧
  trace_of (get_stock_data Demo.runtime (Demo.services (Some "gsk")) "AAPL"
              (advance 10
                 (world_of
                    (get_stock_data Demo.runtime (Demo.services (Some "gsk"))
                       "AAPL" Demo.start)))) = [].
Proof.
  assert (cache_ok Demo.runtime Demo.start) as Hw.
  { intros key stored_at r H. discriminate H. }
  split; [exact Hw |]. split; [reflexivity |].
  destruct (analyze_stock_second_lookup Demo.runtime
              (Demo.services (Some "gsk")) (format_value Demo.runtime)
              pretty (init (Demo.services (Some "gsk"))) "AAPL"
              StockTab.Complete 10 Demo.start Hw eq_refl)
    as (Hprov & _ & _ & _ & Hmiss & _).
  split; [exact Hprov |].
  apply (Hmiss eq_refl). lia.
Defined.

(** The scenario the cache does not cover: MSFT was looked up 299 seconds
    ago, the first lookup of the button is served from the cache, and two
    seconds later the entry has expired: the lookup of [finance_agent] asks
    the provider. *)
Lemma analyze_stock_entry_expires_between_lookups :
  let sv := Demo.services (Some "gsk") in
  let before :=
    advance 299 (world_of (get_stock_data Demo.runtime sv "MSFT" Demo.start)) in
  let run :=
    StockTab.analyze_stock Demo.runtime sv (format_value Demo.runtime) pretty
      (init sv) "MSFT" StockTab.Complete 2 before in
  trace_of (get_stock_data Demo.runtime sv "MSFT" before) = [] ∧
  filter is_provider (trace_of run) = [History "MSFT"; TickerInfo "MSFT"].
Proof. cbn zeta. split; reflexivity. Qed.

(** TSLA at start-up while the provider cannot be reached: the panel names
    Tesla and its sector under the warning. *)
Lemma analyze_stock_shows_the_fallback_note_witness :
  truthy "TSLA" = true ∧ cached 300 Demo.start "TSLA" = None ∧
  yf_history (Demo.offline (Some "gsk")) (clock Demo.start) "TSLA"
    = Raise (Exn "ConnectionError" "Max retries exceeded with url") ∧
  ∃ analysis,
    value_of (StockTab.analyze_stock Demo.runtime
                (Demo.offline (Some "gsk")) (format_value Demo.runtime)
                pretty (init (Demo.offline (Some "gsk"))) "TSLA"
                StockTab.MarketResearch 5 Demo.start)
      = ([StockTab.Plain (Markdown "### 📈 Tesla, Inc. (TSLA)");
          StockTab.Warning
            "⚠️ API Rate Limited: Using AI analysis instead of real-time data due to API limitations";
          StockTab.Notice "**Company**: Tesla, Inc.";
          StockTab.Notice "**Sector**: Automotive";
          StockTab.Plain (Markdown "### 🔍 AI Analysis");
          StockTab.Plain (Markdown analysis)], Ok tt).
Proof.
  split; [reflexivity |]. split; [reflexivity |]. split; [reflexivity |].
  exact (analyze_stock_shows_the_fallback_note Demo.runtime
           (Demo.offline (Some "gsk")) (format_value Demo.runtime) pretty
           (init (Demo.offline (Some "gsk"))) "TSLA" StockTab.MarketResearch
           5 Demo.start (Exn "ConnectionError" "Max retries exceeded with url")
           eq_refl eq_refl eq_refl).
Defined.
